(** * cpp/setup.py: the CMake build step of the controller bindings

    A shallow embedding of [CMakeBuild.build_extension]: the computation of
    the CMake argument list from the environment, the interpreter and the
    file system, and the two [subprocess.check_call] invocations that follow
    it.  Python strings are [string]s, [os.environ] is a finite map, the
    module-level dict [PRE_DOWNLOADED_SOURCE_DIRS] is an association list in
    insertion order (the order [dict.items()] iterates in), and the effects
    of the method (printing, [os.makedirs], launching processes) are threaded
    through an explicit world in a small state-and-exception monad. *)

From Stdlib Require Import ZArith NArith Ascii String DecimalString DecimalN.
From stdpp Require Import gmap strings list fin_maps.

Local Open Scope Z_scope.

(** ** The pieces of the Python runtime the method calls *)

Module Py.

(** [str.upper] on the ASCII range: [a]..[z] are shifted to [A]..[Z] and
    every other byte is left alone. *)
Definition upper_char (c : ascii) : ascii :=
  let n := nat_of_ascii c in
  if ((97 <=? n)%nat && (n <=? 122)%nat)%bool then ascii_of_nat (n - 32) else c.

Fixpoint upper (s : string) : string :=
  match s with
  | EmptyString => EmptyString
  | String c s' => String (upper_char c) (upper s')
  end.

(** [s.endswith(suffix)]: some tail of [s] is [suffix]. *)
Fixpoint endswith (s suffix : string) : bool :=
  if String.eqb s suffix then true
  else match s with
       | EmptyString => false
       | String _ s' => endswith s' suffix
       end.

(** ["{}".format(n)] for a non-negative integer. *)
Definition str_of_N (n : N) : string :=
  NilEmpty.string_of_uint (N.to_uint n).

(** [os.path.sep] on the POSIX hosts the pre-downloaded paths belong to. *)
Definition os_path_sep : string := "/".

End Py.

(** ** The file system, as far as [os.path] looks at it *)

Inductive node : Type := File | Dir.

#[global] Instance node_eq_dec : EqDecision node.
Proof. solve_decision. Defined.

Module os_path.

Definition isdir (fs : gmap string node) (p : string) : bool :=
  bool_decide (fs !! p = Some Dir).

Definition exists_ (fs : gmap string node) (p : string) : bool :=
  bool_decide (is_Some (fs !! p)).

End os_path.

(** ** Module-level constants *)

Definition PRE_DOWNLOADED_MUJOCO_TAR : string :=
  "/deps/mujoco-3.1.6-linux-x86_64.tar.gz".

Definition PRE_DOWNLOADED_SOURCE_DIRS : list (string * string) :=
  [ ("abseil-cpp", "/deps/abseil-cpp_c2435f8342c2d0ed8101cb43adfd605fdc52dca2");
    ("osqp-cpp", "/deps/osqp-cpp_43433736334d6b515ea4b0247156fea9e56c0d3f");
    ("osqp", "/deps/osqp_0baddd36bd57ec1cace0a52c6dd9663e8f16df0a");
    ("pybind11", "/deps/pybind11_914c06fb252b6cc3727d0eedab6736e88a3fcb01");
    ("googletest", "/deps/googletest_e2239ee6043f73722e7aa812a459f54a28552929") ].

(** ** The objects the method receives *)

(** [CMakeExtension]: the extension's name, the absolute source directory and
    the CMake executable. *)
Record CMakeExtension : Type := {
  name : string;
  sourcedir : string;
  cmake : string
}.

(** The [build_ext] command object: [self.debug], [self.build_temp], and the
    value of [os.path.abspath(os.path.dirname(self.get_ext_fullpath(ext.name)))],
    which setuptools computes. *)
Record build_ext : Type := {
  debug : bool;
  build_temp : string;
  ext_dir : string
}.

(** [sys.executable] and [sys.version_info]. *)
Record sys : Type := {
  executable : string;
  version_major : N;
  version_minor : N
}.

(** ** Argument computation (lines 50-87) *)

Definition use_preinstalled_libs (environ : gmap string string) : bool :=
  match environ !! "DM_ROBOTICS_USE_PREINSTALLED_LIBRARIES" with
  | Some _ => true
  | None => false
  end.

Definition output_directory (d : string) : string :=
  if Py.endswith d Py.os_path_sep then d else d +:+ Py.os_path_sep.

Definition build_type (dbg : bool) : string :=
  if dbg then "Debug" else "Release".

(** The list literal of lines 63-73. *)
Definition structural_args (self : build_ext) (py : sys) : list string :=
  [ "-DCMAKE_LIBRARY_OUTPUT_DIRECTORY=" +:+ output_directory (ext_dir self);
    "-DPYTHON_EXECUTABLE=" +:+ executable py;
    "-DDMR_PYTHON_VERSION=" +:+ Py.str_of_N (version_major py) +:+ "."
       +:+ Py.str_of_N (version_minor py);
    "-DCMAKE_BUILD_TYPE=" +:+ build_type (debug self);
    "-DDM_ROBOTICS_BUILD_TESTS=OFF";
    "-DDM_ROBOTICS_BUILD_WHEEL=True";
    "--log-level=VERBOSE" ].

(** The three unconditional appends of lines 76-78. *)
Definition mujoco_tar_arg (tar : string) : string :=
  "-DDM_ROBOTICS_MUJOCO_TAR=" +:+ tar.
Definition fully_disconnected_arg : string :=
  "-DFETCHCONTENT_FULLY_DISCONNECTED:BOOL=TRUE".
Definition system_eigen_arg : string :=
  "-DDM_ROBOTICS_USE_SYSTEM_Eigen3:BOOL=TRUE".

(** The f-string of line 83. *)
Definition source_dir_arg (libname dirname : string) : string :=
  "-DFETCHCONTENT_SOURCE_DIR_" +:+ Py.upper libname +:+ ":STRING=" +:+ dirname.

(** One iteration of the loop of lines 80-83 on the list being built. *)
Definition append_source_dir (fs : gmap string node)
    (acc : list string) (item : string * string) : list string :=
  if os_path.isdir fs item.2 then acc ++ [source_dir_arg item.1 item.2] else acc.

Definition cmake_args (tar : string) (dirs : list (string * string))
    (self : build_ext) (py : sys) (fs : gmap string node)
    (preinstalled : bool) : list string :=
  let args := structural_args self py in
  if preinstalled then
    let args := args ++ [mujoco_tar_arg tar] in
    let args := args ++ [fully_disconnected_arg] in
    let args := args ++ [system_eigen_arg] in
    fold_left (append_source_dir fs) dirs args
  else args.

Definition build_args (environ : gmap string string) : list string :=
  match environ !! "CMAKE_BUILD_PARALLEL_LEVEL" with
  | None => [] ++ ["-j4"]
  | Some _ => []
  end.

(** ** Effects: the world the method runs in (lines 89-99) *)

(** What the method does to the outside, in the order it does it. *)
Inductive event : Type :=
  | Print (args : list string)
  | Makedirs (path : string)
  | CheckCall (cmd : list string) (cwd : string).

Record world : Type := {
  fs : gmap string node;
  trace : list event
}.

Definition emit (e : event) (w : world) : world :=
  {| fs := fs w; trace := trace w ++ [e] |}.

(** The exceptions that leave the method. *)
Inductive exn : Type :=
  | CalledProcessError (returncode : Z) (cmd : list string)
  | FileExistsError (path : string)
  | FileNotFoundError (path : string)
  | NotADirectoryError (path : string)
  | PermissionError (path : string)
  | OSError (errno : Z) (path : string).

Inductive result (A : Type) : Type :=
  | Ok (a : A)
  | Raise (e : exn).
Arguments Ok {A} a.
Arguments Raise {A} e.

Definition M (A : Type) : Type := world -> world * result A.

Definition ret {A : Type} (a : A) : M A := fun w => (w, Ok a).

Definition bind {A B : Type} (m : M A) (k : A -> M B) : M B :=
  fun w =>
    match m w with
    | (w', Ok a) => k a w'
    | (w', Raise e) => (w', Raise e)
    end.

Declare Scope py_scope.
Delimit Scope py_scope with py.
Notation "x <- m ;; k" := (bind m (fun x => k))
  (at level 100, m at next level, right associativity) : py_scope.
Notation "m ;;; k" := (bind m (fun _ => k))
  (at level 100, right associativity) : py_scope.

Definition print (args : list string) : M unit :=
  fun w => (emit (Print args) w, Ok tt).

Definition path_exists (p : string) : M bool :=
  fun w => (w, Ok (os_path.exists_ (fs w) p)).

Section Driver.

(** The external tool: from a command line, a working directory and the
    file system it finds, an exit status and the file system it leaves. *)
Variable spawn : list string -> string -> gmap string node -> Z * gmap string node.

(** The operating system's refusal to create a directory, from the path and
    the file system it finds: [None] when the creation goes through, the
    exception otherwise (an ancestor that is a regular file, a missing
    permission, a read-only or full device, a dangling link at the path). *)
Variable mkdir_error : string -> gmap string node -> option exn.

(** [os.makedirs(p)] with the default [exist_ok=False]: the leaf must be
    new, and the creation can be refused.  Only the leaf is recorded: the
    method reads no ancestor of it, so the ancestors [os.makedirs] creates on
    its way, also before a refusal further down, are left out. *)
Definition makedirs (p : string) : M unit :=
  fun w =>
    match fs w !! p with
    | Some _ => (w, Raise (FileExistsError p))
    | None =>
        match mkdir_error p (fs w) with
        | Some e => (w, Raise e)
        | None =>
            (emit (Makedirs p) {| fs := <[p := Dir]> (fs w); trace := trace w |},
             Ok tt)
        end
    end.

(** [subprocess.check_call(cmd, cwd=cwd)]: the child is started in [cwd],
    which has to be a directory, and a non-zero status is raised. *)
Definition check_call (cmd : list string) (cwd : string) : M unit :=
  fun w =>
    match fs w !! cwd with
    | Some Dir =>
        let (rc, fs') := spawn cmd cwd (fs w) in
        let w' := emit (CheckCall cmd cwd) {| fs := fs'; trace := trace w |} in
        if rc =? 0 then (w', Ok tt) else (w', Raise (CalledProcessError rc cmd))
    | Some File => (w, Raise (NotADirectoryError cwd))
    | None => (w, Raise (FileNotFoundError cwd))
    end.

Definition configure_cmd (ext : CMakeExtension) (args : list string) : list string :=
  [cmake ext] ++ args ++ ["-S"; sourcedir ext].

Definition build_cmd (ext : CMakeExtension) (bargs : list string) : list string :=
  [cmake ext; "--build"; "."] ++ bargs.

Definition build_extension (tar : string) (dirs : list (string * string))
    (environ : gmap string string) (py : sys)
    (self : build_ext) (ext : CMakeExtension) : M unit :=
  fun w0 =>
    let args := cmake_args tar dirs self py (fs w0) (use_preinstalled_libs environ) in
    let bargs := build_args environ in
    (print args ;;;
     present <- path_exists (build_temp self) ;;
     (if negb present then makedirs (build_temp self) else ret tt) ;;;
     check_call (configure_cmd ext args) (build_temp self) ;;;
     check_call (build_cmd ext bargs) (build_temp self))%py w0.

End Driver.

(** The method as [setup()] installs it, on the module's own constants. *)
Definition CMakeBuild_build_extension spawn mkdir_error :=
  build_extension spawn mkdir_error
    PRE_DOWNLOADED_MUJOCO_TAR PRE_DOWNLOADED_SOURCE_DIRS.

(** Projections of a trace used to state what was, and was not, done. *)
Definition launched (t : list event) : list (list string * string) :=
  omap (fun e => match e with CheckCall c d => Some (c, d) | _ => None end) t.

Definition created (t : list event) : list string :=
  omap (fun e => match e with Makedirs p => Some p | _ => None end) t.

(** A [-DFETCHCONTENT_SOURCE_DIR_...] argument, recognised by its prefix. *)
Definition is_source_dir_arg (s : string) : bool :=
  String.prefix "-DFETCHCONTENT_SOURCE_DIR_" s.

(** ** Derived notions and example inputs used in the statements *)

(** What the loop appends when it starts from an empty list. *)
Definition source_dir_args (fs : gmap string node) (dirs : list (string * string))
    : list string :=
  fold_left (append_source_dir fs) dirs [].

(** A concrete command object and interpreter used in the examples. *)
Definition example_self (dbg : bool) (out : string) : build_ext :=
  {| debug := dbg; build_temp := "build/temp.linux-x86_64-cpython-311"; ext_dir := out |}.

Definition example_py : sys :=
  {| executable := "/usr/bin/python3"; version_major := 3; version_minor := 11 |}.

Definition osqp_dir : string := "/deps/osqp_0baddd36bd57ec1cace0a52c6dd9663e8f16df0a".

(** The file system the configure step finds: lines 91-92 add the build
    directory when nothing is there (the configure step is not reached when
    the creation is refused). *)
Definition staging (fs : gmap string node) (bt : string) : gmap string node :=
  match fs !! bt with
  | None => <[bt := Dir]> fs
  | Some _ => fs
  end.

(** What lines 89-92 add to the trace when the configure step is reached:
    the print, then the creation of the build directory when nothing was
    there. *)
Definition preamble (fs : gmap string node) (bt : string) (args : list string)
    : list event :=
  Print args :: match fs !! bt with None => [Makedirs bt] | Some _ => [] end.

(** An external tool that fails while configuring and would succeed while
    building. *)
Definition failing_configure (cmd : list string) (cwd : string)
    (fs : gmap string node) : Z * gmap string node :=
  if bool_decide ("--build" ∈ cmd) then (0, fs) else (1, fs).

Definition example_ext : CMakeExtension :=
  {| name := "dm_robotics.controllers.cartesian_6d_to_joint_velocity_mapper";
     sourcedir := "/src/cpp";
     cmake := "cmake" |}.

(** An operating system that never refuses to create a directory, and one
    that refuses, as POSIX does, to create anything below [build] when
    [build] is a regular file. *)
Definition no_mkdir_error (p : string) (fs : gmap string node) : option exn :=
  None.

Definition build_is_file_error (p : string) (fs : gmap string node) : option exn :=
  if bool_decide (fs !! "build" = Some File) then Some (NotADirectoryError p)
  else None.

(** An external tool that always succeeds and leaves the file system alone. *)
Definition succeeding (cmd : list string) (cwd : string)
    (fs : gmap string node) : Z * gmap string node := (0, fs).

(** ** The extension [setup()] declares (lines 37-43 and 147-152) *)

(** [CMakeExtension.__init__]: the source directory is made absolute by
    [os.path.abspath], which is taken as given. *)
Definition CMakeExtension_init (abspath : string -> string)
    (name0 sourcedir0 cmake0 : string) : CMakeExtension :=
  {| name := name0; sourcedir := abspath sourcedir0; cmake := cmake0 |}.

(** [os.environ.get("CMAKE_EXE", "cmake")]. *)
Definition cmake_exe (environ : gmap string string) : string :=
  default "cmake" (environ !! "CMAKE_EXE").

Definition ext_modules (abspath : string -> string)
    (environ : gmap string string) : list CMakeExtension :=
  [ CMakeExtension_init abspath
      "dm_robotics.controllers.cartesian_6d_to_joint_velocity_mapper"
      EmptyString (cmake_exe environ) ].

(** ** The requirements helpers (lines 102-123) *)

Module PyStr.

Definition LF : ascii := "010"%char.
Definition HASH : ascii := "#"%char.

(** The ASCII characters [str.strip()] removes: tab, line feed, vertical
    tab, form feed, carriage return, the four separators [0x1c]..[0x1f] and
    the space. *)
Definition is_space (c : ascii) : bool :=
  let n := nat_of_ascii c in
  (((9 <=? n)%nat && (n <=? 13)%nat) || ((28 <=? n)%nat && (n <=? 32)%nat))%bool.

Fixpoint lstrip (s : string) : string :=
  match s with
  | EmptyString => EmptyString
  | String c s' => if is_space c then lstrip s' else s
  end.

Fixpoint rstrip (s : string) : string :=
  match s with
  | EmptyString => EmptyString
  | String c s' =>
      match rstrip s' with
      | EmptyString => if is_space c then EmptyString else String c EmptyString
      | r => String c r
      end
  end.

Definition strip (s : string) : string := rstrip (lstrip s).

(** [s.split(sep)] for a one-character separator: the pieces between the
    occurrences of [sep], of which there is always at least one. *)
Fixpoint split (sep : ascii) (s : string) : list string :=
  match s with
  | EmptyString => [EmptyString]
  | String c s' =>
      if Ascii.eqb c sep then EmptyString :: split sep s'
      else match split sep s' with
           | piece :: pieces => String c piece :: pieces
           | [] => [String c EmptyString]
           end
  end.

(** Iterating over a text file: the lines, each with its line feed, the
    last one without when the text does not end in one.  The text is the
    one Python sees, after newline translation. *)
Fixpoint file_lines (text : string) : list string :=
  match text with
  | EmptyString => []
  | String c text' =>
      if Ascii.eqb c LF then String c EmptyString :: file_lines text'
      else match file_lines text' with
           | line :: lines => String c line :: lines
           | [] => [String c EmptyString]
           end
  end.

(** Occurrence of a character, first and last character. *)
Fixpoint mem (c : ascii) (s : string) : bool :=
  match s with
  | EmptyString => false
  | String c' s' => (Ascii.eqb c' c || mem c s')%bool
  end.

Definition first_char (s : string) : option ascii :=
  match s with
  | EmptyString => None
  | String c _ => Some c
  end.

Fixpoint last_char (s : string) : option ascii :=
  match s with
  | EmptyString => None
  | String c s' => match s' with EmptyString => Some c | _ => last_char s' end
  end.

Fixpoint concat (l : list string) : string :=
  match l with
  | [] => EmptyString
  | s :: l' => s +:+ concat l'
  end.

(** The text before the first occurrence of a character: the first piece
    of [split]. *)
Fixpoint before (sep : ascii) (s : string) : string :=
  match s with
  | EmptyString => EmptyString
  | String c s' => if Ascii.eqb c sep then EmptyString else String c (before sep s')
  end.

End PyStr.

(** [_parse_line]: the text before the first [#], stripped.  [None] stands
    for the [ValueError] of unpacking an empty list. *)
Definition _parse_line (s : string) : option string :=
  match PyStr.split PyStr.HASH s with
  | requirement :: _ => Some (PyStr.strip requirement)
  | [] => None
  end.

(** The inner [line_should_be_included]: a non-empty line that does not
    start with [-r]. *)
Definition line_should_be_included (line : string) : bool :=
  match line with
  | EmptyString => false
  | _ => negb (String.prefix "-r" line)
  end.

(** The list comprehension of line 117 over the lines of the file. *)
Fixpoint requirements_of_lines (lines : list string) : option (list string) :=
  match lines with
  | [] => Some []
  | line :: rest =>
      if line_should_be_included line then
        match _parse_line line with
        | Some requirement =>
            match requirements_of_lines rest with
            | Some requirements => Some (requirement :: requirements)
            | None => None
            end
        | None => None
        end
      else requirements_of_lines rest
  end.

(** [_get_requirements], from the text of the requirements file. *)
Definition _get_requirements (text : string) : option (list string) :=
  requirements_of_lines (PyStr.file_lines text).

(** * Properties *)

(** ** Strings *)

Lemma endswith_refl (s : string) : Py.endswith s s = true.
Proof. destruct s; cbn [Py.endswith]; now rewrite String.eqb_refl. Qed.

Lemma endswith_append (p suffix : string) : Py.endswith (p +:+ suffix) suffix = true.
Proof.
  induction p as [|c p IH].
  - apply endswith_refl.
  - change (Py.endswith (String c (p +:+ suffix)) suffix = true).
    cbn [Py.endswith].
    destruct (String.eqb (String c (p +:+ suffix)) suffix); [reflexivity | exact IH].
Qed.

Lemma endswith_inv (s suffix : string) :
  Py.endswith s suffix = true -> exists p, s = p +:+ suffix.
Proof.
  induction s as [|c s IH]; cbn [Py.endswith].
  - destruct suffix; simpl; [| discriminate].
    intros _. now exists EmptyString.
  - destruct (String.eqb (String c s) suffix) eqn:E.
    + apply String.eqb_eq in E. intros _. exists EmptyString. now rewrite E.
    + intros H. destruct (IH H) as [p ->]. now exists (String c p).
Qed.

Lemma is_source_dir_arg_source_dir_arg (libname dirname : string) :
  is_source_dir_arg (source_dir_arg libname dirname) = true.
Proof.
  unfold is_source_dir_arg, source_dir_arg. simpl.
  now destruct (Py.upper libname +:+ _).
Qed.

(** ** The loop over [PRE_DOWNLOADED_SOURCE_DIRS] *)

Lemma fold_append_source_dir fs dirs acc :
  fold_left (append_source_dir fs) dirs acc = acc ++ source_dir_args fs dirs.
Proof.
  unfold source_dir_args. revert acc.
  induction dirs as [|item dirs IH]; intros acc; simpl.
  - now rewrite app_nil_r.
  - rewrite IH, (IH (append_source_dir fs [] item)).
    unfold append_source_dir. destruct (os_path.isdir fs item.2); simpl.
    + now rewrite <- app_assoc.
    + reflexivity.
Qed.

Lemma source_dir_args_cons fs item dirs :
  source_dir_args fs (item :: dirs) =
  (if os_path.isdir fs item.2 then [source_dir_arg item.1 item.2] else [])
    ++ source_dir_args fs dirs.
Proof.
  unfold source_dir_args at 1. simpl. rewrite fold_append_source_dir.
  unfold append_source_dir. now destruct (os_path.isdir fs item.2).
Qed.

Lemma source_dir_args_app fs d1 d2 :
  source_dir_args fs (d1 ++ d2) = source_dir_args fs d1 ++ source_dir_args fs d2.
Proof.
  unfold source_dir_args at 1. rewrite fold_left_app.
  now rewrite fold_append_source_dir.
Qed.

Lemma source_dir_args_none fs dirs :
  (forall item, item ∈ dirs -> os_path.isdir fs item.2 = false) ->
  source_dir_args fs dirs = [].
Proof.
  induction dirs as [|item dirs IH]; intros H; [reflexivity |].
  rewrite source_dir_args_cons, (H item) by (apply elem_of_cons; now left).
  apply IH. intros i Hi. apply H. apply elem_of_cons; now right.
Qed.

Lemma source_dir_args_ext fs1 fs2 dirs :
  (forall item, item ∈ dirs -> os_path.isdir fs1 item.2 = os_path.isdir fs2 item.2) ->
  source_dir_args fs1 dirs = source_dir_args fs2 dirs.
Proof.
  induction dirs as [|item dirs IH]; intros H; [reflexivity |].
  rewrite !source_dir_args_cons, (H item) by (apply elem_of_cons; now left).
  f_equal. apply IH. intros i Hi. apply H. apply elem_of_cons; now right.
Qed.

Lemma filter_source_dir_args fs dirs :
  filter (fun s => is_source_dir_arg s = true) (source_dir_args fs dirs)
  = source_dir_args fs dirs.
Proof.
  induction dirs as [|item dirs IH]; [reflexivity |].
  rewrite source_dir_args_cons, filter_app, IH. f_equal.
  destruct (os_path.isdir fs item.2); [| reflexivity].
  rewrite filter_cons_True by apply is_source_dir_arg_source_dir_arg.
  reflexivity.
Qed.

Lemma cmake_args_preinstalled tar dirs self py fs :
  cmake_args tar dirs self py fs true =
  structural_args self py
    ++ [mujoco_tar_arg tar; fully_disconnected_arg; system_eigen_arg]
    ++ source_dir_args fs dirs.
Proof.
  unfold cmake_args. rewrite fold_append_source_dir.
  now rewrite <- !app_assoc.
Qed.

Lemma filter_structural_args self py :
  filter (fun s => is_source_dir_arg s = true) (structural_args self py) = [].
Proof. reflexivity. Qed.

Lemma filter_fixed_args tar :
  filter (fun s => is_source_dir_arg s = true)
    [mujoco_tar_arg tar; fully_disconnected_arg; system_eigen_arg] = [].
Proof. reflexivity. Qed.

Lemma fully_disconnected_not_structural self py :
  fully_disconnected_arg ∉ structural_args self py.
Proof.
  unfold structural_args, fully_disconnected_arg. intros H.
  repeat (apply elem_of_cons in H as [H | H]; [simpl in H; discriminate H |]).
  now apply elem_of_nil in H.
Qed.

Lemma filter_cmake_args_preinstalled tar dirs self py fs :
  filter (fun s => is_source_dir_arg s = true) (cmake_args tar dirs self py fs true)
  = source_dir_args fs dirs.
Proof.
  rewrite cmake_args_preinstalled, !filter_app.
  now rewrite filter_structural_args, filter_fixed_args, filter_source_dir_args.
Qed.

Lemma isdir_exists fs p : os_path.isdir fs p = true -> os_path.exists_ fs p = true.
Proof.
  unfold os_path.isdir, os_path.exists_. intros H.
  apply bool_decide_eq_true in H. apply bool_decide_eq_true. now rewrite H.
Qed.

Lemma not_exists_not_isdir fs p :
  os_path.exists_ fs p = false -> os_path.isdir fs p = false.
Proof.
  intros H. destruct (os_path.isdir fs p) eqn:E; [| reflexivity].
  apply isdir_exists in E. congruence.
Qed.

Lemma isdir_delete_file fs dirname p :
  fs !! dirname = Some File ->
  os_path.isdir (delete dirname fs) p = os_path.isdir fs p.
Proof.
  intros H. unfold os_path.isdir. destruct (decide (p = dirname)) as [-> | Hne].
  - rewrite lookup_delete_eq, H.
    rewrite !bool_decide_eq_false_2; [reflexivity | discriminate | discriminate].
  - now rewrite lookup_delete_ne.
Qed.

(** ** The argument list *)

(** C1, as the code has it: with the pre-installed libraries requested and no
    path of the table present on disk, the argument list is the structural
    arguments followed by exactly three fixed arguments (the MuJoCo tarball,
    the switch that disconnects FetchContent, the switch for the system
    Eigen3), and it contains no per-dependency source-directory argument. *)
Theorem C1_missing_paths_three_fixed_args tar dirs self py fs :
  (forall item, item ∈ dirs -> os_path.exists_ fs item.2 = false) ->
  cmake_args tar dirs self py fs true
    = structural_args self py
        ++ [mujoco_tar_arg tar; fully_disconnected_arg; system_eigen_arg]
  /\ filter (fun s => is_source_dir_arg s = true)
       (cmake_args tar dirs self py fs true) = [].
Proof.
  intros H.
  assert (Hnone : source_dir_args fs dirs = []).
  { apply source_dir_args_none. intros item Hin.
    apply not_exists_not_isdir. now apply H. }
  split.
  - now rewrite cmake_args_preinstalled, Hnone.
  - now rewrite filter_cmake_args_preinstalled.
Qed.

Lemma C1_missing_paths_witness :
  (forall item, item ∈ PRE_DOWNLOADED_SOURCE_DIRS ->
     os_path.exists_ ∅ item.2 = false)
  /\ cmake_args PRE_DOWNLOADED_MUJOCO_TAR PRE_DOWNLOADED_SOURCE_DIRS
      (example_self false "/out") example_py ∅ true
    = structural_args (example_self false "/out") example_py
        ++ [mujoco_tar_arg PRE_DOWNLOADED_MUJOCO_TAR; fully_disconnected_arg;
            system_eigen_arg]
  /\ filter (fun s => is_source_dir_arg s = true)
       (cmake_args PRE_DOWNLOADED_MUJOCO_TAR PRE_DOWNLOADED_SOURCE_DIRS
          (example_self false "/out") example_py ∅ true) = [].
Proof.
  split; [intros item _; reflexivity |].
  apply (C1_missing_paths_three_fixed_args PRE_DOWNLOADED_MUJOCO_TAR
           PRE_DOWNLOADED_SOURCE_DIRS (example_self false "/out") example_py ∅).
  intros item _. reflexivity.
Defined.

(** C1 as written fails: on an empty file system the arguments added to the
    structural ones are three, not two. *)
Lemma C1_counterexample :
  (forall item, item ∈ PRE_DOWNLOADED_SOURCE_DIRS ->
     os_path.exists_ ∅ item.2 = false)
  /\ ~ (exists a b,
         cmake_args PRE_DOWNLOADED_MUJOCO_TAR PRE_DOWNLOADED_SOURCE_DIRS
           (example_self false "/out") example_py ∅ true
         = structural_args (example_self false "/out") example_py ++ [a; b]).
Proof.
  split.
  - intros item _. reflexivity.
  - intros (a & b & H). apply (f_equal length) in H.
    vm_compute in H. discriminate H.
Qed.

(** C2, as the code has it: with the pre-installed libraries requested, an
    entry of the table whose path is a directory ([os.path.isdir]) contributes
    exactly one argument, at the entry's place in iteration order, of the form
    [-DFETCHCONTENT_SOURCE_DIR_<UPPER-CASED NAME>:STRING=<path>]: the list with
    the entry is the list without it plus that one argument. *)
Theorem C2_directory_entry_one_arg tar d1 d2 libname dirname self py fs :
  os_path.isdir fs dirname = true ->
  cmake_args tar (d1 ++ (libname, dirname) :: d2) self py fs true
    = cmake_args tar d1 self py fs true
        ++ [source_dir_arg libname dirname] ++ source_dir_args fs d2
  /\ cmake_args tar (d1 ++ d2) self py fs true
    = cmake_args tar d1 self py fs true ++ source_dir_args fs d2
  /\ length (filter (fun s => is_source_dir_arg s = true)
       (cmake_args tar (d1 ++ (libname, dirname) :: d2) self py fs true))
    = S (length (filter (fun s => is_source_dir_arg s = true)
       (cmake_args tar (d1 ++ d2) self py fs true)))
  /\ source_dir_arg libname dirname
    = "-DFETCHCONTENT_SOURCE_DIR_" +:+ Py.upper libname +:+ ":STRING=" +:+ dirname.
Proof.
  intros Hdir.
  assert (Hwith : source_dir_args fs (d1 ++ (libname, dirname) :: d2)
            = source_dir_args fs d1 ++ [source_dir_arg libname dirname]
                ++ source_dir_args fs d2).
  { rewrite source_dir_args_app, source_dir_args_cons. simpl. now rewrite Hdir. }
  repeat split.
  - rewrite !cmake_args_preinstalled, Hwith. now rewrite <- !app_assoc.
  - rewrite !cmake_args_preinstalled, source_dir_args_app.
    now rewrite <- !app_assoc.
  - rewrite !filter_cmake_args_preinstalled, Hwith, source_dir_args_app.
    rewrite !length_app. simpl. lia.
Qed.

Lemma C2_directory_entry_witness :
  os_path.isdir {[ osqp_dir := Dir ]} osqp_dir = true
  /\ cmake_args PRE_DOWNLOADED_MUJOCO_TAR PRE_DOWNLOADED_SOURCE_DIRS
       (example_self false "/out") example_py {[ osqp_dir := Dir ]} true
     = structural_args (example_self false "/out") example_py
         ++ [mujoco_tar_arg PRE_DOWNLOADED_MUJOCO_TAR; fully_disconnected_arg;
             system_eigen_arg;
             "-DFETCHCONTENT_SOURCE_DIR_OSQP:STRING=/deps/osqp_0baddd36bd57ec1cace0a52c6dd9663e8f16df0a"].
Proof.
  split; [reflexivity |].
  pose proof (C2_directory_entry_one_arg PRE_DOWNLOADED_MUJOCO_TAR
    (take 2 PRE_DOWNLOADED_SOURCE_DIRS) (drop 3 PRE_DOWNLOADED_SOURCE_DIRS)
    "osqp" osqp_dir (example_self false "/out") example_py
    {[ osqp_dir := Dir ]} eq_refl) as (Hwith & _).
  exact Hwith.
Defined.

(** C2 as written fails: a path that exists on disk as a regular file yields
    no argument for its entry. *)
Lemma C2_counterexample :
  ("osqp", osqp_dir) ∈ PRE_DOWNLOADED_SOURCE_DIRS
  /\ os_path.exists_ {[ osqp_dir := File ]} osqp_dir = true
  /\ filter (fun s => is_source_dir_arg s = true)
       (cmake_args PRE_DOWNLOADED_MUJOCO_TAR PRE_DOWNLOADED_SOURCE_DIRS
          (example_self false "/out") example_py {[ osqp_dir := File ]} true) = []
  /\ source_dir_arg "osqp" osqp_dir
       ∉ cmake_args PRE_DOWNLOADED_MUJOCO_TAR PRE_DOWNLOADED_SOURCE_DIRS
           (example_self false "/out") example_py {[ osqp_dir := File ]} true.
Proof.
  split; [| split; [| split]].
  - apply (bool_decide_unpack _). vm_compute. exact I.
  - reflexivity.
  - reflexivity.
  - apply (bool_decide_unpack _). vm_compute. exact I.
Qed.

(** C3: the argument list is a function of what the method reads and of
    nothing else.  Two runs with the same table, command object and
    interpreter, whose environments agree on
    [DM_ROBOTICS_USE_PREINSTALLED_LIBRARIES] and whose file systems agree, for
    [os.path.isdir], on the paths of the table, compute the same list, element
    for element and in the same order; identical inputs are the special
    case. *)
Theorem C3_cmake_args_deterministic tar dirs self py fs1 fs2
    (env1 env2 : gmap string string) :
  (forall item, item ∈ dirs -> os_path.isdir fs1 item.2 = os_path.isdir fs2 item.2) ->
  env1 !! "DM_ROBOTICS_USE_PREINSTALLED_LIBRARIES"
    = env2 !! "DM_ROBOTICS_USE_PREINSTALLED_LIBRARIES" ->
  cmake_args tar dirs self py fs1 (use_preinstalled_libs env1)
  = cmake_args tar dirs self py fs2 (use_preinstalled_libs env2).
Proof.
  intros Hfs Henv. unfold use_preinstalled_libs. rewrite Henv.
  destruct (env2 !! _); [| reflexivity].
  rewrite !cmake_args_preinstalled. now rewrite (source_dir_args_ext fs1 fs2).
Qed.

Lemma C3_cmake_args_deterministic_witness :
  cmake_args PRE_DOWNLOADED_MUJOCO_TAR PRE_DOWNLOADED_SOURCE_DIRS
    (example_self true "/out/") example_py
    {[ osqp_dir := Dir ]}
    (use_preinstalled_libs {[ "DM_ROBOTICS_USE_PREINSTALLED_LIBRARIES" := "1" ]})
  = cmake_args PRE_DOWNLOADED_MUJOCO_TAR PRE_DOWNLOADED_SOURCE_DIRS
    (example_self true "/out/") example_py
    (<[ "/tmp/unrelated" := File ]> {[ osqp_dir := Dir ]})
    (use_preinstalled_libs
       {[ "DM_ROBOTICS_USE_PREINSTALLED_LIBRARIES" := "1"; "HOME" := "/root" ]}).
Proof.
  apply C3_cmake_args_deterministic.
  - intros item Hin. unfold PRE_DOWNLOADED_SOURCE_DIRS in Hin.
    repeat (apply elem_of_cons in Hin as [-> | Hin]; [reflexivity |]).
    now apply elem_of_nil in Hin.
  - reflexivity.
Defined.

(** C4: without the pre-installed libraries requested the argument list is
    the seven structural arguments and nothing else, whatever the table and
    the file system hold: no per-dependency source-directory argument and no
    argument disconnecting FetchContent. *)
Theorem C4_no_override_structural_only tar dirs self py fs :
  cmake_args tar dirs self py fs false = structural_args self py
  /\ length (cmake_args tar dirs self py fs false) = 7%nat
  /\ filter (fun s => is_source_dir_arg s = true)
       (cmake_args tar dirs self py fs false) = []
  /\ fully_disconnected_arg ∉ cmake_args tar dirs self py fs false.
Proof.
  repeat split. apply fully_disconnected_not_structural.
Qed.

(** C5: the output directory the method passes on always ends in the path
    separator, and a path that already ends in it is passed on unchanged. *)
Theorem C5_output_directory_normalized (d : string) :
  (exists p, output_directory d = p +:+ Py.os_path_sep)
  /\ Py.endswith (output_directory d) Py.os_path_sep = true
  /\ output_directory (d +:+ Py.os_path_sep) = d +:+ Py.os_path_sep
  /\ output_directory (output_directory d) = output_directory d.
Proof.
  assert (Hfix : forall q, output_directory (q +:+ Py.os_path_sep)
                           = q +:+ Py.os_path_sep).
  { intros q. unfold output_directory. now rewrite endswith_append. }
  assert (Hex : exists p, output_directory d = p +:+ Py.os_path_sep).
  { unfold output_directory. destruct (Py.endswith d Py.os_path_sep) eqn:E.
    - now apply endswith_inv.
    - now exists d. }
  split; [exact Hex |]. destruct Hex as [p Hp].
  split; [rewrite Hp; apply endswith_append |].
  split; [apply Hfix |]. rewrite Hp. apply Hfix.
Qed.

(** C9: a release build into [/out] with no override passes
    [-DCMAKE_LIBRARY_OUTPUT_DIRECTORY=/out/] and [-DCMAKE_BUILD_TYPE=Release]
    and does not disconnect FetchContent; a debug build passes
    [-DCMAKE_BUILD_TYPE=Debug]; the build type takes no third value. *)
Theorem C9_release_into_out tar dirs bt py fs :
  let self dbg := {| debug := dbg; build_temp := bt; ext_dir := "/out" |} in
  output_directory "/out" = "/out/"
  /\ "-DCMAKE_LIBRARY_OUTPUT_DIRECTORY=/out/" ∈ cmake_args tar dirs (self false) py fs false
  /\ "-DCMAKE_BUILD_TYPE=Release" ∈ cmake_args tar dirs (self false) py fs false
  /\ (fully_disconnected_arg ∉ cmake_args tar dirs (self false) py fs false)
  /\ "-DCMAKE_BUILD_TYPE=Debug" ∈ cmake_args tar dirs (self true) py fs false
  /\ (forall dbg, build_type dbg = if dbg then "Debug" else "Release")
  /\ (forall dbg, build_type dbg = "Debug" \/ build_type dbg = "Release").
Proof.
  intros self. split; [reflexivity |].
  split; [apply elem_of_cons; now left |].
  split; [do 3 (apply elem_of_cons; right); apply elem_of_cons; now left |].
  split; [apply fully_disconnected_not_structural |].
  split; [do 3 (apply elem_of_cons; right); apply elem_of_cons; now left |].
  split; [reflexivity |].
  intros [|]; [now left | now right].
Qed.

(** C10: the test of line 81 is [os.path.isdir].  An entry whose path exists
    as a regular file is skipped: the argument list is the one computed
    without the entry, and the one computed with the path removed from the
    file system. *)
Theorem C10_file_entry_skipped tar d1 d2 libname dirname self py fs :
  fs !! dirname = Some File ->
  os_path.exists_ fs dirname = true
  /\ os_path.isdir fs dirname = false
  /\ cmake_args tar (d1 ++ (libname, dirname) :: d2) self py fs true
     = cmake_args tar (d1 ++ d2) self py fs true
  /\ cmake_args tar (d1 ++ (libname, dirname) :: d2) self py fs true
     = cmake_args tar (d1 ++ (libname, dirname) :: d2) self py (delete dirname fs) true.
Proof.
  intros Hfile.
  assert (Hnd : os_path.isdir fs dirname = false).
  { unfold os_path.isdir. rewrite Hfile. now apply bool_decide_eq_false_2. }
  split; [unfold os_path.exists_; rewrite Hfile; now apply bool_decide_eq_true_2 |].
  split; [exact Hnd |]. split.
  - rewrite !cmake_args_preinstalled, !source_dir_args_app, source_dir_args_cons.
    simpl. now rewrite Hnd.
  - rewrite !cmake_args_preinstalled. do 2 f_equal.
    apply source_dir_args_ext. intros item _. symmetry.
    now apply isdir_delete_file.
Qed.

Lemma C10_file_entry_witness :
  ((({[ osqp_dir := File ]} : gmap string node) !! osqp_dir) = Some File)
  /\ cmake_args PRE_DOWNLOADED_MUJOCO_TAR PRE_DOWNLOADED_SOURCE_DIRS
       (example_self false "/out") example_py {[ osqp_dir := File ]} true
     = structural_args (example_self false "/out") example_py
         ++ [mujoco_tar_arg PRE_DOWNLOADED_MUJOCO_TAR; fully_disconnected_arg;
             system_eigen_arg].
Proof.
  split; [reflexivity |].
  pose proof (C10_file_entry_skipped PRE_DOWNLOADED_MUJOCO_TAR
    (take 2 PRE_DOWNLOADED_SOURCE_DIRS) (drop 3 PRE_DOWNLOADED_SOURCE_DIRS)
    "osqp" osqp_dir (example_self false "/out") example_py
    {[ osqp_dir := File ]} eq_refl) as (_ & _ & Hskip & _).
  etransitivity; [exact Hskip | reflexivity].
Defined.

(** ** The two phases *)

Section DriverFacts.

Variable spawn : list string -> string -> gmap string node -> Z * gmap string node.
Variable mkdir_error : string -> gmap string node -> option exn.
Variables (tar : string) (dirs : list (string * string)).
Variables (environ : gmap string string) (py : sys).
Variables (self : build_ext) (ext : CMakeExtension).

Let bt := build_temp self.
Let bld := build_cmd ext (build_args environ).

(** The two [check_call]s of lines 95-99, from a world where the build
    directory is a directory. *)
Lemma check_calls_spec (cfg : list string) (w : world) :
  fs w !! bt = Some Dir ->
  (check_call spawn cfg bt ;;; check_call spawn bld bt)%py w =
  let (rc, fs1) := spawn cfg bt (fs w) in
  if rc =? 0 then
    match fs1 !! bt with
    | Some Dir =>
        let (rc2, fs2) := spawn bld bt fs1 in
        ({| fs := fs2; trace := (trace w ++ [CheckCall cfg bt]) ++ [CheckCall bld bt] |},
         if rc2 =? 0 then Ok tt else Raise (CalledProcessError rc2 bld))
    | Some File =>
        ({| fs := fs1; trace := trace w ++ [CheckCall cfg bt] |},
         Raise (NotADirectoryError bt))
    | None =>
        ({| fs := fs1; trace := trace w ++ [CheckCall cfg bt] |},
         Raise (FileNotFoundError bt))
    end
  else ({| fs := fs1; trace := trace w ++ [CheckCall cfg bt] |},
        Raise (CalledProcessError rc cfg)).
Proof.
  intros Hdir. unfold bind, check_call, emit. cbn [fs trace]. rewrite Hdir.
  destruct (spawn cfg bt (fs w)) as [rc fs1].
  destruct (rc =? 0); cbn [fs trace]; [| reflexivity].
  destruct (fs1 !! bt) as [[|]|]; try reflexivity.
  destruct (spawn bld bt fs1) as [rc2 fs2]. now destruct (rc2 =? 0).
Qed.

(** The method up to the first [check_call]. *)
Lemma build_extension_present (w : world) :
  fs w !! bt = Some Dir ->
  let args := cmake_args tar dirs self py (fs w) (use_preinstalled_libs environ) in
  build_extension spawn mkdir_error tar dirs environ py self ext w =
  (check_call spawn (configure_cmd ext args) bt ;;; check_call spawn bld bt)%py
    {| fs := fs w; trace := trace w ++ [Print args] |}.
Proof.
  intros Hdir args. unfold build_extension.
  unfold bind at 1, print. unfold bind at 1, path_exists. cbn [emit fs trace].
  unfold os_path.exists_. fold bt. rewrite Hdir.
  rewrite bool_decide_eq_true_2 by eauto. cbn [negb].
  unfold bind at 1, ret. reflexivity.
Qed.

Lemma build_extension_absent (w : world) :
  fs w !! bt = None ->
  mkdir_error bt (fs w) = None ->
  let args := cmake_args tar dirs self py (fs w) (use_preinstalled_libs environ) in
  build_extension spawn mkdir_error tar dirs environ py self ext w =
  (check_call spawn (configure_cmd ext args) bt ;;; check_call spawn bld bt)%py
    {| fs := <[bt := Dir]> (fs w);
       trace := (trace w ++ [Print args]) ++ [Makedirs bt] |}.
Proof.
  intros Hnone Hmk args. unfold build_extension.
  unfold bind at 1, print. unfold bind at 1, path_exists. cbn [emit fs trace].
  unfold os_path.exists_. fold bt. rewrite Hnone.
  rewrite bool_decide_eq_false_2 by (intros [x Hx]; discriminate Hx). cbn [negb].
  unfold bind at 1, makedirs. cbn [emit fs trace]. fold bt. rewrite Hnone, Hmk.
  reflexivity.
Qed.

(** A refused creation ends the method: the exception leaves it, and only
    the print has happened. *)
Lemma build_extension_refused (w : world) (e : exn) :
  fs w !! bt = None ->
  mkdir_error bt (fs w) = Some e ->
  let args := cmake_args tar dirs self py (fs w) (use_preinstalled_libs environ) in
  build_extension spawn mkdir_error tar dirs environ py self ext w =
  ({| fs := fs w; trace := trace w ++ [Print args] |}, Raise e).
Proof.
  intros Hnone Hmk args. unfold build_extension.
  unfold bind at 1, print. unfold bind at 1, path_exists. cbn [emit fs trace].
  unfold os_path.exists_. fold bt. rewrite Hnone.
  rewrite bool_decide_eq_false_2 by (intros [x Hx]; discriminate Hx). cbn [negb].
  unfold bind, makedirs, emit. cbn [fs trace]. fold bt. now rewrite Hnone, Hmk.
Qed.

Lemma build_extension_file (w : world) :
  fs w !! bt = Some File ->
  let args := cmake_args tar dirs self py (fs w) (use_preinstalled_libs environ) in
  build_extension spawn mkdir_error tar dirs environ py self ext w =
  ({| fs := fs w; trace := trace w ++ [Print args] |}, Raise (NotADirectoryError bt)).
Proof.
  intros Hfile args. unfold build_extension.
  unfold bind at 1, print. unfold bind at 1, path_exists. cbn [emit fs trace].
  unfold os_path.exists_. fold bt. rewrite Hfile.
  rewrite bool_decide_eq_true_2 by eauto. cbn [negb].
  unfold bind at 1, ret. unfold bind, check_call at 1, emit. cbn [fs trace].
  fold bt. now rewrite Hfile.
Qed.

End DriverFacts.

Lemma staging_is_dir (fs : gmap string node) (bt : string) :
  fs !! bt <> Some File -> staging fs bt !! bt = Some Dir.
Proof.
  unfold staging. destruct (fs !! bt) as [[|]|] eqn:E; intros H.
  - now destruct H.
  - exact E.
  - apply lookup_insert_eq.
Qed.

Lemma build_extension_staged spawn mkdir_error tar dirs environ py self ext (w : world) :
  fs w !! build_temp self <> Some File ->
  (fs w !! build_temp self = None -> mkdir_error (build_temp self) (fs w) = None) ->
  let args := cmake_args tar dirs self py (fs w) (use_preinstalled_libs environ) in
  build_extension spawn mkdir_error tar dirs environ py self ext w =
  (check_call spawn (configure_cmd ext args) (build_temp self) ;;;
   check_call spawn (build_cmd ext (build_args environ)) (build_temp self))%py
    {| fs := staging (fs w) (build_temp self);
       trace := trace w ++ preamble (fs w) (build_temp self) args |}.
Proof.
  intros Hnf Hmk args. unfold staging, preamble.
  destruct (fs w !! build_temp self) as [[|]|] eqn:E.
  - now destruct Hnf.
  - now rewrite build_extension_present.
  - rewrite build_extension_absent by auto. cbn zeta.
    now rewrite <- app_assoc.
Qed.

Lemma launched_app (t1 t2 : list event) :
  launched (t1 ++ t2) = launched t1 ++ launched t2.
Proof. apply omap_app. Qed.

Lemma created_app (t1 t2 : list event) :
  created (t1 ++ t2) = created t1 ++ created t2.
Proof. apply omap_app. Qed.

Lemma launched_preamble fs bt args : launched (preamble fs bt args) = [].
Proof. unfold preamble. now destruct (fs !! bt). Qed.

Lemma cmake_args_head tar dirs self py fs preinstalled :
  exists rest,
    cmake_args tar dirs self py fs preinstalled
    = ("-DCMAKE_LIBRARY_OUTPUT_DIRECTORY=" +:+ output_directory (ext_dir self)) :: rest.
Proof.
  destruct preinstalled.
  - rewrite cmake_args_preinstalled. eexists. reflexivity.
  - eexists. reflexivity.
Qed.

(** The two command lines cannot be confused: the second word of the one is
    a [-D] definition, of the other [--build]. *)
Lemma configure_cmd_not_build_cmd tar dirs self py fs preinstalled ext bargs :
  configure_cmd ext (cmake_args tar dirs self py fs preinstalled)
  <> build_cmd ext bargs.
Proof.
  destruct (cmake_args_head tar dirs self py fs preinstalled) as [rest ->].
  unfold configure_cmd, build_cmd. simpl. intros H. discriminate H.
Qed.

(** C6: when the configure step is launched (the build directory is there
    or could be created) and exits with a non-zero status, the method raises
    [CalledProcessError] with that status and the configure command line
    (which is not the build command line), and the only process launched is
    the configure step: the build step is not run. *)
Theorem C6_configure_failure_stops spawn mkdir_error tar dirs environ py self ext
    (w : world) (rc : Z) (fs1 : gmap string node) :
  let args := cmake_args tar dirs self py (fs w) (use_preinstalled_libs environ) in
  let cfg := configure_cmd ext args in
  let bt := build_temp self in
  let out := build_extension spawn mkdir_error tar dirs environ py self ext w in
  fs w !! bt <> Some File ->
  (fs w !! bt = None -> mkdir_error bt (fs w) = None) ->
  spawn cfg bt (staging (fs w) bt) = (rc, fs1) ->
  rc <> 0 ->
  out.2 = Raise (CalledProcessError rc cfg)
  /\ trace out.1 = trace w ++ preamble (fs w) bt args ++ [CheckCall cfg bt]
  /\ launched (trace out.1) = launched (trace w) ++ [(cfg, bt)]
  /\ cfg <> build_cmd ext (build_args environ)
  /\ fs out.1 = fs1.
Proof.
  intros args cfg bt out Hnf Hmk Hspawn Hrc.
  assert (Hout : out = ({| fs := fs1;
                           trace := (trace w ++ preamble (fs w) bt args)
                                      ++ [CheckCall cfg bt] |},
                        Raise (CalledProcessError rc cfg))).
  { unfold out. rewrite build_extension_staged by assumption.
    rewrite check_calls_spec by (apply staging_is_dir; exact Hnf).
    cbn [fs trace]. fold args cfg bt. rewrite Hspawn.
    apply Z.eqb_neq in Hrc. now rewrite Hrc. }
  rewrite Hout. cbn [fst snd fs trace].
  split; [reflexivity |]. split; [now rewrite <- app_assoc |].
  split; [| split; [apply configure_cmd_not_build_cmd | reflexivity]].
  rewrite !launched_app, launched_preamble. now rewrite app_nil_r.
Qed.

Lemma C6_configure_failure_witness :
  let out := CMakeBuild_build_extension failing_configure no_mkdir_error ∅ example_py
               (example_self false "/out") example_ext {| fs := ∅; trace := [] |} in
  out.2 = Raise (CalledProcessError 1
            (configure_cmd example_ext
               (cmake_args PRE_DOWNLOADED_MUJOCO_TAR PRE_DOWNLOADED_SOURCE_DIRS
                  (example_self false "/out") example_py ∅ false)))
  /\ length (launched (trace out.1)) = 1%nat.
Proof.
  pose proof (C6_configure_failure_stops failing_configure no_mkdir_error
    PRE_DOWNLOADED_MUJOCO_TAR PRE_DOWNLOADED_SOURCE_DIRS ∅ example_py
    (example_self false "/out") example_ext {| fs := ∅; trace := [] |} 1
    (<[ build_temp (example_self false "/out") := Dir ]> ∅))
    as H.
  cbn zeta in H.
  destruct H as (Hres & _ & Hlaunched & _).
  - discriminate.
  - reflexivity.
  - reflexivity.
  - discriminate.
  - split; [exact Hres |]. unfold CMakeBuild_build_extension; cbn zeta.
    now rewrite Hlaunched.
Defined.

(** C7: a build directory left by a prior run is neither an error nor
    created again: [os.makedirs] is not called, the configure step is
    launched in it, the build step (when the configure step exits with 0 and
    leaves the directory in place) is launched in it too, and two zero exit
    statuses make the method return normally.  When nothing is at the path,
    [os.makedirs] runs after the print and before any process: if it creates
    the directory, the first process is launched after the creation; if it
    raises, its exception leaves the method and no process is launched at
    all.  Either way no process is launched anywhere else. *)
Theorem C7_staging_directory spawn mkdir_error tar dirs environ py self ext (w : world) :
  let args := cmake_args tar dirs self py (fs w) (use_preinstalled_libs environ) in
  let cfg := configure_cmd ext args in
  let bld := build_cmd ext (build_args environ) in
  let bt := build_temp self in
  let out := build_extension spawn mkdir_error tar dirs environ py self ext w in
  (fs w !! bt = Some Dir ->
     created (trace out.1) = created (trace w)
     /\ (forall p, out.2 <> Raise (FileExistsError p))
     /\ (exists rest,
           trace out.1 = trace w ++ Print args :: CheckCall cfg bt :: rest
           /\ (rest = [] \/ rest = [CheckCall bld bt])
           /\ ((spawn cfg bt (fs w)).1 = 0 ->
               (spawn cfg bt (fs w)).2 !! bt = Some Dir ->
               rest = [CheckCall bld bt]
               /\ ((spawn bld bt (spawn cfg bt (fs w)).2).1 = 0 -> out.2 = Ok tt))))
  /\ (fs w !! bt = None ->
     (mkdir_error bt (fs w) = None ->
        created (trace out.1) = created (trace w) ++ [bt]
        /\ exists rest,
             trace out.1
               = trace w ++ Print args :: Makedirs bt :: CheckCall cfg bt :: rest
             /\ (rest = [] \/ rest = [CheckCall bld bt]))
     /\ (forall e, mkdir_error bt (fs w) = Some e ->
           out.2 = Raise e
           /\ trace out.1 = trace w ++ [Print args]
           /\ launched (trace out.1) = launched (trace w)
           /\ created (trace out.1) = created (trace w))).
Proof.
  intros args cfg bld bt out.
  assert (Hshape : fs w !! bt <> Some File ->
    (fs w !! bt = None -> mkdir_error bt (fs w) = None) ->
    exists rest,
      trace out.1 = trace w ++ preamble (fs w) bt args ++ CheckCall cfg bt :: rest
      /\ (rest = [] \/ rest = [CheckCall bld bt])
      /\ (forall p, out.2 <> Raise (FileExistsError p))
      /\ ((spawn cfg bt (staging (fs w) bt)).1 = 0 ->
          (spawn cfg bt (staging (fs w) bt)).2 !! bt = Some Dir ->
          rest = [CheckCall bld bt]
          /\ ((spawn bld bt (spawn cfg bt (staging (fs w) bt)).2).1 = 0 ->
              out.2 = Ok tt))).
  { intros Hnf Hmk. unfold out. rewrite build_extension_staged by assumption.
    rewrite check_calls_spec by (apply staging_is_dir; exact Hnf).
    cbn [fs trace]. fold args cfg bt bld.
    destruct (spawn cfg bt (staging (fs w) bt)) as [rc fs1]. cbn [fst snd].
    destruct (rc =? 0) eqn:Hrc.
    - destruct (fs1 !! bt) as [[|]|] eqn:Hbt.
      + exists []. cbn [fst snd fs trace]. rewrite <- app_assoc.
        repeat split; auto; try discriminate;
          try (intros _ Habs; discriminate Habs).
      + destruct (spawn bld bt fs1) as [rc2 fs2]. cbn [fst snd fs trace].
        exists [CheckCall bld bt]. rewrite <- !app_assoc. cbn [app].
        repeat split; auto.
        * intros p. destruct (rc2 =? 0); discriminate.
        * intros Hrc2. subst rc2. reflexivity.
      + exists []. cbn [fst snd fs trace]. rewrite <- app_assoc.
        repeat split; auto; try discriminate;
          try (intros _ Habs; discriminate Habs).
    - exists []. cbn [fst snd fs trace]. rewrite <- app_assoc.
      split; [reflexivity |]. split; [now left |]. split; [discriminate |].
      intros Hz. apply Z.eqb_neq in Hrc. now destruct Hrc. }
  split; intros Hbt; [| split; [intros Hmk | intros e Hmk]].
  - destruct Hshape as (rest & Htr & Hrest & Hexn & Hrun);
      [rewrite Hbt; discriminate | rewrite Hbt; discriminate |].
    unfold staging, preamble in *. rewrite Hbt in *. cbn [app] in Htr.
    split; [| split; [exact Hexn |]].
    + rewrite Htr, created_app.
      destruct Hrest as [-> | ->]; cbn; now rewrite app_nil_r.
    + exists rest. auto.
  - destruct Hshape as (rest & Htr & Hrest & _);
      [rewrite Hbt; discriminate | intros _; exact Hmk |].
    unfold preamble in Htr. rewrite Hbt in Htr. cbn [app] in Htr. split.
    + rewrite Htr, created_app. destruct Hrest as [-> | ->]; reflexivity.
    + exists rest. auto.
  - unfold out. rewrite (build_extension_refused _ _ _ _ _ _ _ _ _ e) by assumption.
    cbn [fst snd trace]. split; [reflexivity |]. split; [reflexivity |].
    rewrite launched_app, created_app. cbn. now rewrite !app_nil_r.
Qed.

Lemma C7_staging_directory_witness :
  let bt := build_temp (example_self false "/out") in
  let run mkdir_error fs0 :=
    CMakeBuild_build_extension succeeding mkdir_error ∅ example_py
      (example_self false "/out") example_ext {| fs := fs0; trace := [] |} in
  (created (trace (run no_mkdir_error {[ bt := Dir ]}).1) = []
   /\ (run no_mkdir_error {[ bt := Dir ]}).2 = Ok tt)
  /\ created (trace (run no_mkdir_error ∅).1) = [bt]
  /\ ((run build_is_file_error {[ "build" := File ]}).2
        = Raise (NotADirectoryError bt)
      /\ launched (trace (run build_is_file_error {[ "build" := File ]}).1) = []).
Proof.
  intros bt run. split; [| split].
  - destruct (C7_staging_directory succeeding no_mkdir_error
      PRE_DOWNLOADED_MUJOCO_TAR PRE_DOWNLOADED_SOURCE_DIRS ∅ example_py
      (example_self false "/out") example_ext
      {| fs := {[ bt := Dir ]}; trace := [] |}) as [Hpresent _].
    destruct (Hpresent eq_refl) as (Hcreated & _ & rest & _ & _ & Hrun).
    split; [exact Hcreated |].
    destruct (Hrun eq_refl eq_refl) as [_ Hok]. exact (Hok eq_refl).
  - destruct (C7_staging_directory succeeding no_mkdir_error
      PRE_DOWNLOADED_MUJOCO_TAR PRE_DOWNLOADED_SOURCE_DIRS ∅ example_py
      (example_self false "/out") example_ext
      {| fs := ∅; trace := [] |}) as [_ Habsent].
    destruct (Habsent eq_refl) as [Hcreate _].
    destruct (Hcreate eq_refl) as (Hcreated & _). exact Hcreated.
  - destruct (C7_staging_directory succeeding build_is_file_error
      PRE_DOWNLOADED_MUJOCO_TAR PRE_DOWNLOADED_SOURCE_DIRS ∅ example_py
      (example_self false "/out") example_ext
      {| fs := {[ "build" := File ]}; trace := [] |}) as [_ Habsent].
    destruct (Habsent eq_refl) as [_ Hrefused].
    destruct (Hrefused (NotADirectoryError bt) eq_refl) as (Hres & _ & Hlaunched & _).
    split; [exact Hres | exact Hlaunched].
Defined.

(** C8: the build step receives [-j4] exactly when
    [CMAKE_BUILD_PARALLEL_LEVEL] is not a key of the environment (whatever its
    value, the empty string included); with the key present nothing is added
    to [--build .].  When the build directory is there or could be created,
    and the configure step succeeds and leaves it in place, the last process launched is the build step with
    exactly that command line. *)
Theorem C8_parallel_flag spawn mkdir_error tar dirs environ py self ext
    (w : world) (fs1 : gmap string node) :
  let args := cmake_args tar dirs self py (fs w) (use_preinstalled_libs environ) in
  let cfg := configure_cmd ext args in
  let bt := build_temp self in
  let out := build_extension spawn mkdir_error tar dirs environ py self ext w in
  fs w !! bt <> Some File ->
  (fs w !! bt = None -> mkdir_error bt (fs w) = None) ->
  spawn cfg bt (staging (fs w) bt) = (0, fs1) ->
  fs1 !! bt = Some Dir ->
  build_args environ
    = (if bool_decide ("CMAKE_BUILD_PARALLEL_LEVEL" ∈ dom environ) then [] else ["-j4"])
  /\ ("-j4" ∈ build_args environ <-> environ !! "CMAKE_BUILD_PARALLEL_LEVEL" = None)
  /\ last (launched (trace out.1))
     = Some ([cmake ext; "--build"; "."] ++ build_args environ, bt)
  /\ launched (trace out.1)
     = launched (trace w)
         ++ [(cfg, bt); ([cmake ext; "--build"; "."] ++ build_args environ, bt)].
Proof.
  intros args cfg bt out Hnf Hmk Hspawn Hdir.
  assert (Hargs : build_args environ
    = if bool_decide ("CMAKE_BUILD_PARALLEL_LEVEL" ∈ dom environ) then [] else ["-j4"]).
  { unfold build_args.
    destruct (environ !! "CMAKE_BUILD_PARALLEL_LEVEL") as [v|] eqn:E.
    - rewrite bool_decide_eq_true_2; [reflexivity |].
      apply elem_of_dom. now exists v.
    - rewrite bool_decide_eq_false_2; [reflexivity |].
      now apply not_elem_of_dom. }
  assert (Hlaunched : launched (trace out.1)
     = launched (trace w)
         ++ [(cfg, bt); ([cmake ext; "--build"; "."] ++ build_args environ, bt)]).
  { unfold out. rewrite build_extension_staged by assumption.
    rewrite check_calls_spec by (apply staging_is_dir; exact Hnf).
    cbn [fs trace]. fold args cfg bt. rewrite Hspawn. cbn [Z.eqb].
    rewrite Hdir.
    destruct (spawn _ bt fs1) as [rc2 fs2]. cbn [fst snd fs trace].
    rewrite !launched_app, launched_preamble, app_nil_r, <- app_assoc.
    reflexivity. }
  split; [exact Hargs |]. split; [| split; [| exact Hlaunched]].
  - unfold build_args.
    destruct (environ !! "CMAKE_BUILD_PARALLEL_LEVEL") as [v|]; split.
    + intros H. now apply elem_of_nil in H.
    + discriminate.
    + reflexivity.
    + intros _. apply elem_of_cons. now left.
  - rewrite Hlaunched.
    change [(cfg, bt); ([cmake ext; "--build"; "."] ++ build_args environ, bt)]
      with ([(cfg, bt)] ++ [([cmake ext; "--build"; "."] ++ build_args environ, bt)]).
    rewrite app_assoc. apply last_snoc.
Qed.

Lemma C8_parallel_flag_witness :
  let run environ :=
    CMakeBuild_build_extension succeeding no_mkdir_error environ example_py
      (example_self false "/out") example_ext {| fs := ∅; trace := [] |} in
  last (launched (trace (run ∅).1))
    = Some (["cmake"; "--build"; "."; "-j4"],
            build_temp (example_self false "/out"))
  /\ last (launched (trace (run {[ "CMAKE_BUILD_PARALLEL_LEVEL" := "8" ]}).1))
    = Some (["cmake"; "--build"; "."],
            build_temp (example_self false "/out")).
Proof.
  intros run. split.
  - destruct (C8_parallel_flag succeeding no_mkdir_error
      PRE_DOWNLOADED_MUJOCO_TAR PRE_DOWNLOADED_SOURCE_DIRS ∅ example_py
      (example_self false "/out") example_ext {| fs := ∅; trace := [] |}
      (<[ build_temp (example_self false "/out") := Dir ]> ∅))
      as (_ & _ & Hlast & _);
      [discriminate | reflexivity | reflexivity | reflexivity |].
    exact Hlast.
  - destruct (C8_parallel_flag succeeding no_mkdir_error
      PRE_DOWNLOADED_MUJOCO_TAR PRE_DOWNLOADED_SOURCE_DIRS
      {[ "CMAKE_BUILD_PARALLEL_LEVEL" := "8" ]} example_py
      (example_self false "/out") example_ext {| fs := ∅; trace := [] |}
      (<[ build_temp (example_self false "/out") := Dir ]> ∅))
      as (_ & _ & Hlast & _);
      [discriminate | reflexivity | reflexivity | reflexivity |].
    exact Hlast.
Defined.

(** * Further properties of the argument list *)

Lemma source_dir_args_map_filter fs (dirs : list (string * string)) :
  source_dir_args fs dirs
  = map (fun item => source_dir_arg item.1 item.2)
      (filter (fun item : string * string => os_path.isdir fs item.2 = true) dirs).
Proof.
  induction dirs as [|item dirs IH]; [reflexivity |].
  rewrite source_dir_args_cons, filter_cons, IH.
  destruct (decide (os_path.isdir fs item.2 = true)) as [E | E].
  - now rewrite E.
  - apply not_true_is_false in E. now rewrite E.
Qed.

(** X1: With the pre-installed libraries requested, the argument list is the
    structural arguments, the three fixed ones, and then one source-directory
    argument for each entry of the table whose path is a directory, in the
    order of the table. *)
Theorem cmake_args_table_order tar (dirs : list (string * string)) self py fs :
  cmake_args tar dirs self py fs true
  = structural_args self py
      ++ [mujoco_tar_arg tar; fully_disconnected_arg; system_eigen_arg]
      ++ map (fun item => source_dir_arg item.1 item.2)
           (filter (fun item : string * string => os_path.isdir fs item.2 = true) dirs).
Proof. now rewrite cmake_args_preinstalled, source_dir_args_map_filter. Qed.

Lemma source_dir_args_mono fs1 fs2 (dirs : list (string * string)) :
  (forall p, os_path.isdir fs1 p = true -> os_path.isdir fs2 p = true) ->
  source_dir_args fs1 dirs `sublist_of` source_dir_args fs2 dirs.
Proof.
  intros Hmono. induction dirs as [|item dirs IH]; [constructor |].
  rewrite !source_dir_args_cons.
  destruct (os_path.isdir fs1 item.2) eqn:E1.
  - rewrite (Hmono _ E1). simpl. now apply sublist_skip.
  - destruct (os_path.isdir fs2 item.2); simpl; [now apply sublist_cons | exact IH].
Qed.

(** X2: Pre-downloading more never takes an argument away: when every directory
    of one file system is a directory of the other, the argument list
    computed on the first is a sublist, in order, of the one computed on the
    second. *)
Theorem cmake_args_monotone tar dirs self py fs1 fs2 preinstalled :
  (forall p, os_path.isdir fs1 p = true -> os_path.isdir fs2 p = true) ->
  cmake_args tar dirs self py fs1 preinstalled
    `sublist_of` cmake_args tar dirs self py fs2 preinstalled.
Proof.
  intros Hmono. destruct preinstalled; [| reflexivity].
  rewrite !cmake_args_preinstalled.
  apply sublist_app; [reflexivity |].
  apply sublist_app; [reflexivity |].
  now apply source_dir_args_mono.
Qed.

Lemma cmake_args_monotone_witness :
  cmake_args PRE_DOWNLOADED_MUJOCO_TAR PRE_DOWNLOADED_SOURCE_DIRS
    (example_self false "/out") example_py ∅ true
  `sublist_of`
  cmake_args PRE_DOWNLOADED_MUJOCO_TAR PRE_DOWNLOADED_SOURCE_DIRS
    (example_self false "/out") example_py {[ osqp_dir := Dir ]} true.
Proof.
  apply cmake_args_monotone. intros p H. discriminate H.
Defined.

(** X3: Only the presence of [DM_ROBOTICS_USE_PREINSTALLED_LIBRARIES] counts:
    set to any value, the empty string and [0] included, it disconnects
    FetchContent; removed, it does not. *)
Theorem preinstalled_switch_presence_only tar dirs self py fs
    (environ : gmap string string) (v : string) :
  fully_disconnected_arg
    ∈ cmake_args tar dirs self py fs
        (use_preinstalled_libs
           (<["DM_ROBOTICS_USE_PREINSTALLED_LIBRARIES" := v]> environ))
  /\ fully_disconnected_arg
    ∉ cmake_args tar dirs self py fs
        (use_preinstalled_libs
           (delete "DM_ROBOTICS_USE_PREINSTALLED_LIBRARIES" environ)).
Proof.
  unfold use_preinstalled_libs. rewrite lookup_insert_eq, lookup_delete_eq. split.
  - rewrite cmake_args_preinstalled. apply elem_of_app. right.
    apply elem_of_app. left. apply elem_of_cons. right.
    apply elem_of_cons. now left.
  - apply fully_disconnected_not_structural.
Qed.

(** X4: Requesting the pre-installed libraries only appends: the list computed
    without the request, on any file system, is a prefix of the list computed
    with it. *)
Theorem cmake_args_override_appends tar dirs self py fs1 fs2 preinstalled :
  cmake_args tar dirs self py fs1 false
    `prefix_of` cmake_args tar dirs self py fs2 preinstalled.
Proof.
  destruct preinstalled; [| reflexivity].
  rewrite cmake_args_preinstalled. now apply prefix_app_r.
Qed.

(** ** The interpreter version argument *)

Lemma string_of_uint_no_dot (d : Decimal.uint) :
  PyStr.mem "."%char (NilEmpty.string_of_uint d) = false.
Proof. induction d; simpl; auto. Qed.

Lemma str_of_N_inj (a b : N) : Py.str_of_N a = Py.str_of_N b -> a = b.
Proof.
  unfold Py.str_of_N. intros H.
  apply DecimalN.Unsigned.to_uint_inj.
  assert (Hs : Some (N.to_uint a) = Some (N.to_uint b)).
  { rewrite <- !NilEmpty.usu. now rewrite H. }
  now injection Hs.
Qed.

Lemma append_sep_inj (c : ascii) (s1 s2 t1 t2 : string) :
  PyStr.mem c s1 = false -> PyStr.mem c s2 = false ->
  s1 +:+ String c t1 = s2 +:+ String c t2 -> s1 = s2 /\ t1 = t2.
Proof.
  revert s2. induction s1 as [|a s1 IH]; intros [|b s2] H1 H2 H; simpl in *.
  - injection H as ->. auto.
  - injection H as <- _. rewrite Ascii.eqb_refl in H2. discriminate H2.
  - injection H as -> _. rewrite Ascii.eqb_refl in H1. discriminate H1.
  - injection H as -> H. apply orb_false_iff in H1 as [_ H1].
    apply orb_false_iff in H2 as [_ H2].
    destruct (IH s2 H1 H2 H) as [-> ->]. auto.
Qed.

(** X5: The version argument identifies the interpreter version: two
    interpreters get the same [-DDMR_PYTHON_VERSION=] argument only when
    their major and their minor numbers agree (3.1 and 3.10, or 3.11 and
    31.1, are told apart). *)
Theorem python_version_arg_inj self py1 py2 :
  structural_args self py1 !! 2%nat = structural_args self py2 !! 2%nat ->
  version_major py1 = version_major py2 /\ version_minor py1 = version_minor py2.
Proof.
  unfold structural_args. cbn [lookup list_lookup]. intros H.
  injection H as H. apply (inj (String.append _)) in H.
  change (Py.str_of_N (version_major py1)
            +:+ String "."%char (Py.str_of_N (version_minor py1))
          = Py.str_of_N (version_major py2)
            +:+ String "."%char (Py.str_of_N (version_minor py2))) in H.
  apply append_sep_inj in H as [Hmaj Hmin]; try apply string_of_uint_no_dot.
  split; now apply str_of_N_inj.
Qed.

Lemma python_version_arg_inj_witness :
  version_major example_py = version_major
    {| executable := "/opt/python"; version_major := 3; version_minor := 11 |}
  /\ version_minor example_py = version_minor
    {| executable := "/opt/python"; version_major := 3; version_minor := 11 |}.
Proof.
  apply (python_version_arg_inj (example_self false "/out")). reflexivity.
Defined.

(** * Further properties of the two phases *)

Section Outcomes.

Variable spawn : list string -> string -> gmap string node -> Z * gmap string node.
Variables (bt : string) (cfg bld : list string).

(** Every way the two [check_call]s can end, from a world where the build
    directory is a directory. *)
Lemma check_calls_cases (w : world) :
  fs w !! bt = Some Dir ->
  let r1 := spawn cfg bt (fs w) in
  let r2 := spawn bld bt r1.2 in
  let out := (check_call spawn cfg bt ;;; check_call spawn bld bt)%py w in
  (r1.1 <> 0
   /\ out = ({| fs := r1.2; trace := trace w ++ [CheckCall cfg bt] |},
             Raise (CalledProcessError r1.1 cfg)))
  \/ (r1.1 = 0 /\ r1.2 !! bt = Some File
      /\ out = ({| fs := r1.2; trace := trace w ++ [CheckCall cfg bt] |},
                Raise (NotADirectoryError bt)))
  \/ (r1.1 = 0 /\ r1.2 !! bt = None
      /\ out = ({| fs := r1.2; trace := trace w ++ [CheckCall cfg bt] |},
                Raise (FileNotFoundError bt)))
  \/ (r1.1 = 0 /\ r1.2 !! bt = Some Dir /\ r2.1 <> 0
      /\ out = ({| fs := r2.2;
                   trace := trace w ++ [CheckCall cfg bt; CheckCall bld bt] |},
                Raise (CalledProcessError r2.1 bld)))
  \/ (r1.1 = 0 /\ r1.2 !! bt = Some Dir /\ r2.1 = 0
      /\ out = ({| fs := r2.2;
                   trace := trace w ++ [CheckCall cfg bt; CheckCall bld bt] |},
                Ok tt)).
Proof.
  intros Hdir r1 r2 out. subst out.
  unfold bind, check_call, emit. cbn [fs trace]. rewrite Hdir.
  subst r2 r1. destruct (spawn cfg bt (fs w)) as [rc fs1]. cbn [fst snd].
  destruct (Z.eqb_spec rc 0) as [-> | Hrc]; cbn [fs trace]; [| now left].
  right. destruct (fs1 !! bt) as [[|]|]; [now left | | right; now left].
  right; right. destruct (spawn bld bt fs1) as [rc2 fs2]. cbn [fst snd].
  rewrite <- app_assoc. cbn [app].
  destruct (Z.eqb_spec rc2 0) as [-> | Hrc2]; [right | left]; auto.
Qed.

End Outcomes.

(** X6: Whatever the tool and the file system do, the method prints the
    configure arguments first, calls [os.makedirs] exactly when nothing is at
    the path of the build directory, and then launches at most the configure
    step followed by the build step, both in the build directory.  The
    directory is created exactly when nothing was at its path and
    [os.makedirs] did not raise; when it raises, its exception leaves the
    method and nothing is launched. *)
Theorem build_extension_trace_shape spawn mkdir_error tar dirs environ py self ext (w : world) :
  let args := cmake_args tar dirs self py (fs w) (use_preinstalled_libs environ) in
  let cfg := configure_cmd ext args in
  let bld := build_cmd ext (build_args environ) in
  let bt := build_temp self in
  let out := build_extension spawn mkdir_error tar dirs environ py self ext w in
  exists pre calls,
    trace out.1 = trace w ++ Print args :: pre ++ calls
    /\ pre = match fs w !! bt, mkdir_error bt (fs w) with
             | None, None => [Makedirs bt]
             | _, _ => []
             end
    /\ calls `prefix_of` [CheckCall cfg bt; CheckCall bld bt]
    /\ (forall e, fs w !! bt = None -> mkdir_error bt (fs w) = Some e ->
          calls = [] /\ out.2 = Raise e).
Proof.
  intros args cfg bld bt out.
  destruct (fs w !! bt) as [[|]|] eqn:Hbt.
  - exists [], []. unfold out. fold bt in Hbt.
    rewrite build_extension_file by exact Hbt. cbn [fst trace].
    repeat split; try discriminate. apply prefix_nil.
  - assert (Hnf : fs w !! build_temp self <> Some File)
      by (fold bt; rewrite Hbt; discriminate).
    assert (Hmk : fs w !! build_temp self = None ->
                  mkdir_error (build_temp self) (fs w) = None)
      by (fold bt; rewrite Hbt; discriminate).
    unfold out. rewrite build_extension_staged by assumption.
    fold args cfg bld bt. unfold preamble. rewrite Hbt.
    match goal with |- context [bind _ _ ?w0] => set (w1 := w0) end.
    assert (Hdir : fs w1 !! bt = Some Dir)
      by (apply staging_is_dir; exact Hnf).
    destruct (check_calls_cases spawn bt cfg bld w1 Hdir)
      as [(_ & ->) | [(_ & _ & ->) | [(_ & _ & ->) | [(_ & _ & _ & ->) | (_ & _ & _ & ->)]]]];
      cbn [fst fs trace w1]; rewrite <- app_assoc; cbn [app];
      eexists [], _; (split; [reflexivity |]); (split; [reflexivity |]);
      (split; [| discriminate]);
      first [ reflexivity | now exists [CheckCall bld bt] ].
  - destruct (mkdir_error bt (fs w)) as [e |] eqn:Hmk.
    + exists [], []. unfold out.
      rewrite (build_extension_refused _ _ _ _ _ _ _ _ _ e) by assumption.
      cbn [fst snd trace]. split; [reflexivity |]. split; [reflexivity |].
      split; [apply prefix_nil |]. intros e' _ He'. injection He' as <-. auto.
    + assert (Hnf : fs w !! build_temp self <> Some File)
        by (fold bt; rewrite Hbt; discriminate).
      unfold out. rewrite build_extension_staged by (fold bt; auto).
      fold args cfg bld bt. unfold preamble. rewrite Hbt.
      match goal with |- context [bind _ _ ?w0] => set (w1 := w0) end.
      assert (Hdir : fs w1 !! bt = Some Dir)
        by (apply staging_is_dir; exact Hnf).
      destruct (check_calls_cases spawn bt cfg bld w1 Hdir)
        as [(_ & ->) | [(_ & _ & ->) | [(_ & _ & ->) | [(_ & _ & _ & ->) | (_ & _ & _ & ->)]]]];
        cbn [fst fs trace w1]; rewrite <- app_assoc; cbn [app];
        eexists [Makedirs bt], _; (split; [reflexivity |]); (split; [reflexivity |]);
        (split; [| discriminate]);
        first [ reflexivity | now exists [CheckCall bld bt] ].
Qed.

(** The outcomes of the method when the build directory can be used. *)
Lemma build_extension_cases spawn mkdir_error tar dirs environ py self ext (w : world) :
  let args := cmake_args tar dirs self py (fs w) (use_preinstalled_libs environ) in
  let cfg := configure_cmd ext args in
  let bld := build_cmd ext (build_args environ) in
  let bt := build_temp self in
  let t0 := trace w ++ preamble (fs w) bt args in
  let r1 := spawn cfg bt (staging (fs w) bt) in
  let r2 := spawn bld bt r1.2 in
  let out := build_extension spawn mkdir_error tar dirs environ py self ext w in
  fs w !! bt <> Some File ->
  (fs w !! bt = None -> mkdir_error bt (fs w) = None) ->
  (r1.1 <> 0
   /\ out = ({| fs := r1.2; trace := t0 ++ [CheckCall cfg bt] |},
             Raise (CalledProcessError r1.1 cfg)))
  \/ (r1.1 = 0 /\ r1.2 !! bt = Some File
      /\ out = ({| fs := r1.2; trace := t0 ++ [CheckCall cfg bt] |},
                Raise (NotADirectoryError bt)))
  \/ (r1.1 = 0 /\ r1.2 !! bt = None
      /\ out = ({| fs := r1.2; trace := t0 ++ [CheckCall cfg bt] |},
                Raise (FileNotFoundError bt)))
  \/ (r1.1 = 0 /\ r1.2 !! bt = Some Dir /\ r2.1 <> 0
      /\ out = ({| fs := r2.2; trace := t0 ++ [CheckCall cfg bt; CheckCall bld bt] |},
                Raise (CalledProcessError r2.1 bld)))
  \/ (r1.1 = 0 /\ r1.2 !! bt = Some Dir /\ r2.1 = 0
      /\ out = ({| fs := r2.2; trace := t0 ++ [CheckCall cfg bt; CheckCall bld bt] |},
                Ok tt)).
Proof.
  intros args cfg bld bt t0 r1 r2 out Hnf Hmk. subst out.
  rewrite build_extension_staged by assumption.
  fold args cfg bld bt t0.
  apply (check_calls_cases spawn bt cfg bld
           {| fs := staging (fs w) bt; trace := t0 |}).
  apply staging_is_dir. exact Hnf.
Qed.

(** X7: A build step that exits with a non-zero status, after a configure step
    that was launched (the build directory is there or could be created) and
    exited with 0, raises [CalledProcessError] with the build step's
    status and command line; both processes were launched, in that order. *)
Theorem build_failure_after_configure spawn mkdir_error tar dirs environ py self ext
    (w : world) (rc : Z) (fs1 fs2 : gmap string node) :
  let args := cmake_args tar dirs self py (fs w) (use_preinstalled_libs environ) in
  let cfg := configure_cmd ext args in
  let bld := build_cmd ext (build_args environ) in
  let bt := build_temp self in
  let out := build_extension spawn mkdir_error tar dirs environ py self ext w in
  fs w !! bt <> Some File ->
  (fs w !! bt = None -> mkdir_error bt (fs w) = None) ->
  spawn cfg bt (staging (fs w) bt) = (0, fs1) ->
  fs1 !! bt = Some Dir ->
  spawn bld bt fs1 = (rc, fs2) ->
  rc <> 0 ->
  out.2 = Raise (CalledProcessError rc bld)
  /\ launched (trace out.1) = launched (trace w) ++ [(cfg, bt); (bld, bt)]
  /\ fs out.1 = fs2.
Proof.
  intros args cfg bld bt out Hnf Hmk H1 Hdir H2 Hrc.
  pose proof (build_extension_cases spawn mkdir_error tar dirs environ py self ext w Hnf Hmk) as Hc.
  cbn zeta in Hc. fold args cfg bld bt out in Hc.
  rewrite H1 in Hc. cbn [fst snd] in Hc. rewrite H2 in Hc. cbn [fst snd] in Hc.
  destruct Hc as [(Hx & _) | [(_ & Hx & _) | [(_ & Hx & _) | [(_ & _ & _ & ->) | (_ & _ & Hx & _)]]]];
    try congruence.
  cbn [fst snd fs trace]. repeat split.
  rewrite !launched_app, launched_preamble, app_nil_r. reflexivity.
Qed.

(** An external tool whose configure step succeeds and whose build step
    exits with status 2. *)
Lemma build_failure_after_configure_witness :
  let spawn (cmd : list string) (cwd : string) (fs0 : gmap string node) :=
    if bool_decide ("--build" ∈ cmd) then (2, fs0) else (0, fs0) in
  let out := CMakeBuild_build_extension spawn no_mkdir_error ∅ example_py
               (example_self false "/out") example_ext {| fs := ∅; trace := [] |} in
  out.2 = Raise (CalledProcessError 2 ["cmake"; "--build"; "."; "-j4"])
  /\ length (launched (trace out.1)) = 2%nat.
Proof.
  intros spawn out.
  destruct (build_failure_after_configure spawn no_mkdir_error
    PRE_DOWNLOADED_MUJOCO_TAR PRE_DOWNLOADED_SOURCE_DIRS ∅ example_py
    (example_self false "/out") example_ext {| fs := ∅; trace := [] |} 2
    (<[ build_temp (example_self false "/out") := Dir ]> ∅)
    (<[ build_temp (example_self false "/out") := Dir ]> ∅))
    as (Hres & Hlaunched & _);
    [discriminate | reflexivity | reflexivity | reflexivity | reflexivity
     | discriminate |].
  split; [exact Hres |]. unfold out, CMakeBuild_build_extension.
  now rewrite Hlaunched.
Defined.

(** The three ways the directory step can go. *)
Lemma directory_step_cases (mkdir_error : string -> gmap string node -> option exn)
    (fs : gmap string node) (bt : string) :
  fs !! bt = Some File
  \/ (fs !! bt = None /\ exists e, mkdir_error bt fs = Some e)
  \/ (fs !! bt <> Some File /\ (fs !! bt = None -> mkdir_error bt fs = None)).
Proof.
  destruct (fs !! bt) as [[|]|].
  - now left.
  - right; right. split; discriminate.
  - destruct (mkdir_error bt fs) as [e|].
    + right; left. eauto.
    + right; right. split; [discriminate | reflexivity].
Qed.

(** X8: The method returns normally exactly when the build directory could be
    used (its path does not hold a regular file, and [os.makedirs], when it
    is called, does not raise), the configure step exited with 0 and left
    the directory in place, and the build step exited with 0. *)
Theorem build_extension_ok_iff spawn mkdir_error tar dirs environ py self ext (w : world) :
  let args := cmake_args tar dirs self py (fs w) (use_preinstalled_libs environ) in
  let cfg := configure_cmd ext args in
  let bld := build_cmd ext (build_args environ) in
  let bt := build_temp self in
  let r1 := spawn cfg bt (staging (fs w) bt) in
  let r2 := spawn bld bt r1.2 in
  (build_extension spawn mkdir_error tar dirs environ py self ext w).2 = Ok tt
  <-> (fs w !! bt <> Some File
       /\ (fs w !! bt = None -> mkdir_error bt (fs w) = None)
       /\ r1.1 = 0 /\ r1.2 !! bt = Some Dir /\ r2.1 = 0).
Proof.
  intros args cfg bld bt r1 r2.
  destruct (directory_step_cases mkdir_error (fs w) bt)
    as [Hfile | [(Hbt & e & He) | (Hnf & Hmk)]].
  - rewrite build_extension_file by exact Hfile. cbn [snd]. split.
    + discriminate.
    + intros (Hnf & _). now destruct Hnf.
  - rewrite (build_extension_refused _ _ _ _ _ _ _ _ _ e) by assumption.
    cbn [snd]. split.
    + discriminate.
    + intros (_ & Hmk & _). rewrite (Hmk Hbt) in He. discriminate He.
  - pose proof (build_extension_cases spawn mkdir_error tar dirs environ py self ext w Hnf Hmk) as Hc.
    cbn zeta in Hc. fold args cfg bld bt r1 r2 in Hc.
    destruct Hc as [(Hx & ->) | [(H1 & Hx & ->) | [(H1 & Hx & ->)
                  | [(H1 & Hd & Hx & ->) | (H1 & Hd & H2 & ->)]]]];
      cbn [snd]; (split; [try discriminate | intros (_ & _ & Ha & Hb & Hc)]);
      try congruence; auto.
Qed.

(** X9: When the path of the build directory holds a regular file, the method
    creates nothing and launches nothing: it raises [NotADirectoryError]
    from the first [check_call], having only printed the arguments. *)
Theorem staging_path_is_file spawn mkdir_error tar dirs environ py self ext (w : world) :
  let args := cmake_args tar dirs self py (fs w) (use_preinstalled_libs environ) in
  let out := build_extension spawn mkdir_error tar dirs environ py self ext w in
  fs w !! build_temp self = Some File ->
  out.2 = Raise (NotADirectoryError (build_temp self))
  /\ trace out.1 = trace w ++ [Print args]
  /\ launched (trace out.1) = launched (trace w)
  /\ created (trace out.1) = created (trace w)
  /\ fs out.1 = fs w.
Proof.
  intros args out Hfile. unfold out.
  rewrite build_extension_file by exact Hfile. cbn [fst snd fs trace].
  repeat split.
  - rewrite launched_app. cbn. now rewrite app_nil_r.
  - rewrite created_app. cbn. now rewrite app_nil_r.
Qed.

Lemma staging_path_is_file_witness :
  let w := {| fs := {[ build_temp (example_self false "/out") := File ]};
              trace := [] |} in
  let out := CMakeBuild_build_extension succeeding no_mkdir_error ∅ example_py
               (example_self false "/out") example_ext w in
  out.2 = Raise (NotADirectoryError (build_temp (example_self false "/out")))
  /\ launched (trace out.1) = [].
Proof.
  intros w out.
  destruct (staging_path_is_file succeeding no_mkdir_error
    PRE_DOWNLOADED_MUJOCO_TAR PRE_DOWNLOADED_SOURCE_DIRS ∅ example_py
    (example_self false "/out") example_ext w eq_refl)
    as (Hres & _ & Hlaunched & _).
  split; [exact Hres | exact Hlaunched].
Defined.

Lemma launched_cases spawn mkdir_error tar dirs environ py self ext (w : world) :
  let args := cmake_args tar dirs self py (fs w) (use_preinstalled_libs environ) in
  let cfg := configure_cmd ext args in
  let bld := build_cmd ext (build_args environ) in
  let bt := build_temp self in
  let out := build_extension spawn mkdir_error tar dirs environ py self ext w in
  exists calls,
    launched (trace out.1) = launched (trace w) ++ calls
    /\ calls `prefix_of` [(cfg, bt); (bld, bt)].
Proof.
  intros args cfg bld bt out.
  destruct (directory_step_cases mkdir_error (fs w) bt)
    as [Hfile | [(Hbt & e & He) | (Hnf & Hmk)]].
  - exists []. unfold out. rewrite build_extension_file by exact Hfile.
    cbn [fst trace]. rewrite launched_app. split; [reflexivity | apply prefix_nil].
  - exists []. unfold out.
    rewrite (build_extension_refused _ _ _ _ _ _ _ _ _ e) by assumption.
    cbn [fst trace]. rewrite launched_app. split; [reflexivity | apply prefix_nil].
  - pose proof (build_extension_cases spawn mkdir_error tar dirs environ py self ext w Hnf Hmk) as Hc.
    cbn zeta in Hc. fold args cfg bld bt out in Hc.
    destruct Hc as [(_ & ->) | [(_ & _ & ->) | [(_ & _ & ->)
                  | [(_ & _ & _ & ->) | (_ & _ & _ & ->)]]]];
      cbn [fst trace]; rewrite !launched_app, launched_preamble, app_nil_r;
      eexists; (split; [reflexivity |]); cbn;
      first [ reflexivity | now exists [(bld, bt)] ].
Qed.

Lemma created_present spawn mkdir_error tar dirs environ py self ext (w : world) :
  fs w !! build_temp self = Some Dir ->
  created (trace (build_extension spawn mkdir_error tar dirs environ py self ext w).1)
  = created (trace w).
Proof.
  intros Hdir.
  assert (Hnf : fs w !! build_temp self <> Some File) by (rewrite Hdir; discriminate).
  assert (Hmk : fs w !! build_temp self = None ->
                mkdir_error (build_temp self) (fs w) = None)
    by (rewrite Hdir; discriminate).
  pose proof (build_extension_cases spawn mkdir_error tar dirs environ py self ext w Hnf Hmk) as Hc.
  cbn zeta in Hc. unfold preamble in Hc. rewrite Hdir in Hc.
  destruct Hc as [(_ & ->) | [(_ & _ & ->) | [(_ & _ & ->)
                | [(_ & _ & _ & ->) | (_ & _ & _ & ->)]]]];
    cbn [fst trace]; rewrite !created_app; cbn; now rewrite !app_nil_r.
Qed.

(** X10: Incremental rebuilds.  When the path of the build directory does
    not hold a regular file, [os.makedirs] (if it is called) does not raise,
    and the tool does not remove the build directory, the directory is in
    place when the method ends, whatever the exit statuses of the tool, and
    running the method again on the world it left creates nothing. *)
Theorem rerun_creates_nothing spawn mkdir_error tar dirs environ py self ext (w : world) :
  let bt := build_temp self in
  let out1 := build_extension spawn mkdir_error tar dirs environ py self ext w in
  let out2 := build_extension spawn mkdir_error tar dirs environ py self ext out1.1 in
  fs w !! bt <> Some File ->
  (fs w !! bt = None -> mkdir_error bt (fs w) = None) ->
  (forall cmd fs0, fs0 !! bt = Some Dir -> (spawn cmd bt fs0).2 !! bt = Some Dir) ->
  fs out1.1 !! bt = Some Dir
  /\ created (trace out2.1) = created (trace out1.1).
Proof.
  intros bt out1 out2 Hnf Hmk Hkeep.
  assert (Hdir : fs out1.1 !! bt = Some Dir).
  { pose proof (build_extension_cases spawn mkdir_error tar dirs environ py self ext w Hnf Hmk) as Hc.
    cbn zeta in Hc. fold bt out1 in Hc.
    pose proof (staging_is_dir (fs w) bt Hnf) as Hst.
    destruct Hc as [(_ & ->) | [(_ & Hx & _) | [(_ & Hx & _)
                  | [(_ & Hd & _ & ->) | (_ & Hd & _ & ->)]]]]; cbn [fst fs].
    - now apply Hkeep.
    - rewrite Hkeep in Hx by exact Hst. discriminate Hx.
    - rewrite Hkeep in Hx by exact Hst. discriminate Hx.
    - now apply Hkeep.
    - now apply Hkeep. }
  split; [exact Hdir |]. unfold out2. now apply created_present.
Qed.

Lemma rerun_creates_nothing_witness :
  let out1 := CMakeBuild_build_extension succeeding no_mkdir_error ∅ example_py
                (example_self false "/out") example_ext {| fs := ∅; trace := [] |} in
  let out2 := CMakeBuild_build_extension succeeding no_mkdir_error ∅ example_py
                (example_self false "/out") example_ext out1.1 in
  created (trace out1.1) = [build_temp (example_self false "/out")]
  /\ created (trace out2.1) = created (trace out1.1).
Proof.
  intros out1 out2. split; [reflexivity |].
  destruct (rerun_creates_nothing succeeding no_mkdir_error
    PRE_DOWNLOADED_MUJOCO_TAR PRE_DOWNLOADED_SOURCE_DIRS ∅ example_py
    (example_self false "/out") example_ext {| fs := ∅; trace := [] |})
    as (_ & Hsame).
  - discriminate.
  - reflexivity.
  - intros cmd fs0 H. exact H.
  - exact Hsame.
Defined.

(** X11: Every process the method launches for the extension [setup()] declares
    is the executable named by [CMAKE_EXE] when the package was set up, or
    [cmake] when the variable was not set, and runs in the build
    directory. *)
Theorem launched_tool_is_cmake_exe spawn mkdir_error tar dirs environ py self
    (abspath : string -> string) (environ0 : gmap string string)
    (ext : CMakeExtension) (fs0 : gmap string node) (cmd : list string) (cwd : string) :
  ext ∈ ext_modules abspath environ0 ->
  (cmd, cwd) ∈ launched (trace (build_extension spawn mkdir_error tar dirs environ py self ext
                                  {| fs := fs0; trace := [] |}).1) ->
  head cmd = Some (default "cmake" (environ0 !! "CMAKE_EXE"))
  /\ cwd = build_temp self.
Proof.
  intros Hext Hin.
  apply list_elem_of_singleton in Hext. subst ext.
  destruct (launched_cases spawn mkdir_error tar dirs environ py self
              (CMakeExtension_init abspath
                 "dm_robotics.controllers.cartesian_6d_to_joint_velocity_mapper"
                 EmptyString (cmake_exe environ0))
              {| fs := fs0; trace := [] |}) as (calls & Heq & [k Hpre]).
  rewrite Heq in Hin. cbn [trace launched omap list_omap app] in Hin.
  assert (Hin2 : (cmd, cwd) ∈ calls ++ k) by (apply elem_of_app; now left).
  rewrite <- Hpre in Hin2.
  apply elem_of_cons in Hin2 as [Hc | Hin2];
    [| apply elem_of_cons in Hin2 as [Hc | Hin2]; [| now apply elem_of_nil in Hin2]];
    injection Hc as -> ->; split; reflexivity.
Qed.

Lemma launched_tool_is_cmake_exe_witness :
  head ["/opt/cmake/bin/cmake"; "--build"; "."; "-j4"]
  = Some (default "cmake"
            (({[ "CMAKE_EXE" := "/opt/cmake/bin/cmake" ]} : gmap string string)
               !! "CMAKE_EXE")).
Proof.
  refine (proj1 (launched_tool_is_cmake_exe succeeding no_mkdir_error
    PRE_DOWNLOADED_MUJOCO_TAR PRE_DOWNLOADED_SOURCE_DIRS ∅ example_py
    (example_self false "/out") (fun p => "/src/cpp" +:+ p)
    {[ "CMAKE_EXE" := "/opt/cmake/bin/cmake" ]}
    (CMakeExtension_init (fun p => "/src/cpp" +:+ p)
       "dm_robotics.controllers.cartesian_6d_to_joint_velocity_mapper"
       EmptyString "/opt/cmake/bin/cmake")
    ∅ ["/opt/cmake/bin/cmake"; "--build"; "."; "-j4"]
    (build_temp (example_self false "/out")) _ _)).
  - apply list_elem_of_singleton. reflexivity.
  - apply (bool_decide_unpack _). vm_compute. exact I.
Defined.

(** * The requirements helpers *)

(** ** [split] and [strip] *)

Lemma split_before (sep : ascii) (s : string) :
  exists pieces, PyStr.split sep s = PyStr.before sep s :: pieces.
Proof.
  induction s as [|c s [pieces IH]]; simpl.
  - now exists [].
  - destruct (Ascii.eqb c sep); [eauto |]. rewrite IH. eauto.
Qed.

Lemma parse_line_eq (s : string) :
  _parse_line s = Some (PyStr.strip (PyStr.before PyStr.HASH s)).
Proof.
  unfold _parse_line. now destruct (split_before PyStr.HASH s) as [pieces ->].
Qed.

Lemma mem_before (sep : ascii) (s : string) :
  PyStr.mem sep (PyStr.before sep s) = false.
Proof.
  induction s as [|c s IH]; simpl; [reflexivity |].
  destruct (Ascii.eqb c sep) eqn:E; simpl; [reflexivity |]. now rewrite E.
Qed.

Lemma before_no_sep (sep : ascii) (s : string) :
  PyStr.mem sep s = false -> PyStr.before sep s = s.
Proof.
  induction s as [|c s IH]; simpl; [reflexivity |].
  intros H. apply orb_false_iff in H as [E H]. rewrite E. now rewrite IH.
Qed.

Lemma before_append_sep (sep : ascii) (s rest : string) :
  PyStr.before sep (s +:+ String sep rest) = PyStr.before sep s.
Proof.
  induction s as [|c s IH]; simpl.
  - now rewrite Ascii.eqb_refl.
  - destruct (Ascii.eqb c sep); [reflexivity | now rewrite IH].
Qed.

Lemma mem_lstrip (c : ascii) (s : string) :
  PyStr.mem c s = false -> PyStr.mem c (PyStr.lstrip s) = false.
Proof.
  induction s as [|a s IH]; simpl; [reflexivity |].
  intros H. destruct (PyStr.is_space a); [| exact H].
  apply orb_false_iff in H as [_ H]. now apply IH.
Qed.

Lemma mem_rstrip (c : ascii) (s : string) :
  PyStr.mem c s = false -> PyStr.mem c (PyStr.rstrip s) = false.
Proof.
  induction s as [|a s IH]; simpl; [reflexivity |].
  intros H. apply orb_false_iff in H as [E H]. specialize (IH H).
  destruct (PyStr.rstrip s) as [|b r].
  - destruct (PyStr.is_space a); simpl; [reflexivity | now rewrite E].
  - change (PyStr.mem c (String a (String b r)))
      with (Ascii.eqb a c || PyStr.mem c (String b r))%bool.
    now rewrite E, IH.
Qed.

Lemma first_char_lstrip (s : string) (c : ascii) :
  PyStr.first_char (PyStr.lstrip s) = Some c -> PyStr.is_space c = false.
Proof.
  induction s as [|a s IH]; simpl; [discriminate |].
  destruct (PyStr.is_space a) eqn:E; [exact IH |].
  simpl. intros H. injection H as <-. exact E.
Qed.

Lemma first_char_rstrip_inv (s : string) (c : ascii) :
  PyStr.first_char (PyStr.rstrip s) = Some c -> PyStr.first_char s = Some c.
Proof.
  destruct s as [|a s]; simpl; [discriminate |].
  destruct (PyStr.rstrip s); [destruct (PyStr.is_space a) |]; simpl; congruence.
Qed.

Lemma last_char_rstrip (s : string) (c : ascii) :
  PyStr.last_char (PyStr.rstrip s) = Some c -> PyStr.is_space c = false.
Proof.
  induction s as [|a s IH]; simpl; [discriminate |].
  destruct (PyStr.rstrip s) as [|b r].
  - destruct (PyStr.is_space a) eqn:E; simpl; [discriminate |].
    intros H. injection H as <-. exact E.
  - exact IH.
Qed.

Lemma lstrip_fix (s : string) :
  (forall c, PyStr.first_char s = Some c -> PyStr.is_space c = false) ->
  PyStr.lstrip s = s.
Proof.
  destruct s as [|a s]; simpl; [reflexivity |].
  intros H. now rewrite (H a eq_refl).
Qed.

Lemma rstrip_idem (s : string) : PyStr.rstrip (PyStr.rstrip s) = PyStr.rstrip s.
Proof.
  induction s as [|a s IH]; [reflexivity |].
  cbn [PyStr.rstrip]. destruct (PyStr.rstrip s) as [|b r] eqn:E.
  - destruct (PyStr.is_space a) eqn:Ea; [reflexivity |].
    cbn [PyStr.rstrip]. now rewrite Ea.
  - change (PyStr.rstrip (String a (String b r)))
      with (match PyStr.rstrip (String b r) with
            | EmptyString =>
                if PyStr.is_space a then EmptyString else String a EmptyString
            | String x y => String a (String x y)
            end).
    now rewrite IH.
Qed.

Lemma strip_idem (s : string) : PyStr.strip (PyStr.strip s) = PyStr.strip s.
Proof.
  unfold PyStr.strip.
  rewrite (lstrip_fix (PyStr.rstrip (PyStr.lstrip s))).
  - apply rstrip_idem.
  - intros c H. apply first_char_rstrip_inv in H.
    now apply first_char_lstrip in H.
Qed.

(** ** [_parse_line] *)

(** X12: [_parse_line] never raises, and what it returns is clean: it contains
    no [#] and neither starts nor ends with a whitespace character. *)
Theorem parse_line_clean (s : string) :
  exists requirement,
    _parse_line s = Some requirement
    /\ PyStr.mem PyStr.HASH requirement = false
    /\ (forall c, PyStr.first_char requirement = Some c -> PyStr.is_space c = false)
    /\ (forall c, PyStr.last_char requirement = Some c -> PyStr.is_space c = false).
Proof.
  exists (PyStr.strip (PyStr.before PyStr.HASH s)).
  split; [apply parse_line_eq |]. unfold PyStr.strip. split; [| split].
  - apply mem_rstrip, mem_lstrip, mem_before.
  - intros c H. apply first_char_rstrip_inv in H.
    now apply first_char_lstrip in H.
  - intros c H. now apply last_char_rstrip in H.
Qed.

(** X13: A trailing comment does not change the requirement: everything from
    the first [#] on is ignored, further [#] included. *)
Theorem parse_line_comment_ignored (s comment : string) :
  _parse_line (s +:+ String PyStr.HASH comment) = _parse_line s.
Proof. now rewrite !parse_line_eq, before_append_sep. Qed.

(** X14: Parsing is idempotent: a requirement that [_parse_line] returned is
    returned unchanged when parsed again. *)
Theorem parse_line_idempotent (s : string) :
  exists requirement,
    _parse_line s = Some requirement
    /\ _parse_line requirement = Some requirement.
Proof.
  exists (PyStr.strip (PyStr.before PyStr.HASH s)).
  split; [apply parse_line_eq |].
  rewrite parse_line_eq, before_no_sep.
  - now rewrite strip_idem.
  - unfold PyStr.strip. apply mem_rstrip, mem_lstrip, mem_before.
Qed.

(** ** [_get_requirements] *)

Lemma file_lines_nonempty (text : string) :
  Forall (fun line => line <> EmptyString) (PyStr.file_lines text).
Proof.
  induction text as [|c text IH]; simpl; [constructor |].
  destruct (Ascii.eqb c PyStr.LF).
  - constructor; [discriminate | exact IH].
  - destruct (PyStr.file_lines text) as [|line lines].
    + constructor; [discriminate | constructor].
    + inversion IH; subst. constructor; [discriminate | assumption].
Qed.

(** Iterating over the file loses nothing: the lines put together are the
    text. *)
Lemma concat_file_lines (text : string) :
  PyStr.concat (PyStr.file_lines text) = text.
Proof.
  induction text as [|c text IH]; simpl; [reflexivity |].
  destruct (Ascii.eqb c PyStr.LF).
  - simpl. now rewrite IH.
  - destruct (PyStr.file_lines text) as [|line lines]; simpl in *; now rewrite <- IH.
Qed.

Lemma requirements_of_lines_spec (lines : list string) :
  requirements_of_lines lines
  = Some (map (fun line => PyStr.strip (PyStr.before PyStr.HASH line))
            (filter (fun line => line_should_be_included line = true) lines)).
Proof.
  induction lines as [|line lines IH]; [reflexivity |].
  cbn [requirements_of_lines]. rewrite filter_cons, IH, parse_line_eq.
  destruct (line_should_be_included line) eqn:E.
  - now rewrite decide_True by reflexivity.
  - now rewrite decide_False by discriminate.
Qed.

Lemma requirements_of_lines_app (l1 l2 : list string) :
  requirements_of_lines (l1 ++ l2)
  = match requirements_of_lines l1, requirements_of_lines l2 with
    | Some r1, Some r2 => Some (r1 ++ r2)
    | _, _ => None
    end.
Proof. now rewrite !requirements_of_lines_spec, filter_app, map_app. Qed.

Lemma rstrip_cons_nonspace (a : ascii) (s : string) :
  PyStr.is_space a = false ->
  PyStr.rstrip (String a s) = String a (PyStr.rstrip s).
Proof.
  intros H. cbn [PyStr.rstrip]. destruct (PyStr.rstrip s); [now rewrite H | reflexivity].
Qed.

Lemma filter_included_nonempty (lines : list string) :
  Forall (fun line => line <> EmptyString) lines ->
  filter (fun line => line_should_be_included line = true) lines
  = filter (fun line => String.prefix "-r" line = false) lines.
Proof.
  induction 1 as [|line lines Hline _ IH]; [reflexivity |].
  rewrite !filter_cons, IH.
  destruct line as [|c line]; [now destruct Hline |].
  cbn [line_should_be_included].
  destruct (String.prefix "-r" (String c line)); cbn [negb].
  - rewrite decide_False by discriminate. now rewrite decide_False by discriminate.
  - rewrite decide_True by reflexivity. now rewrite decide_True by reflexivity.
Qed.

(** X15: Reading a requirements file never raises.  It returns one requirement
    for each line of the file that does not start with [-r], blank lines and
    comment lines included, in the order of the file, and each requirement is
    free of [#] and already stripped. *)
Theorem get_requirements_total (text : string) :
  exists requirements,
    _get_requirements text = Some requirements
    /\ length requirements
       = length (filter (fun line => String.prefix "-r" line = false)
                   (PyStr.file_lines text))
    /\ Forall (fun requirement =>
                 PyStr.mem PyStr.HASH requirement = false
                 /\ PyStr.strip requirement = requirement) requirements.
Proof.
  unfold _get_requirements. rewrite requirements_of_lines_spec.
  eexists. split; [reflexivity |]. split.
  - rewrite length_map.
    now rewrite (filter_included_nonempty _ (file_lines_nonempty text)).
  - apply Forall_forall. intros requirement Hin.
    apply list_elem_of_fmap in Hin as (line & -> & _). split.
    + unfold PyStr.strip. apply mem_rstrip, mem_lstrip, mem_before.
    + apply strip_idem.
Qed.

Lemma dash_r_not_included (rest : string) :
  line_should_be_included ("-r" +:+ rest) = false.
Proof. now destruct rest. Qed.

(** X16: Lines that start with [-r] contribute nothing: the result is the one
    for the file without them. *)
Theorem dash_r_lines_dropped (l1 l2 : list string) (rest : string) :
  requirements_of_lines (l1 ++ ("-r" +:+ rest) :: l2)
  = requirements_of_lines (l1 ++ l2).
Proof.
  rewrite !requirements_of_lines_spec, !filter_app, filter_cons.
  now rewrite decide_False by (rewrite dash_r_not_included; discriminate).
Qed.

(** X17: Blank lines and comment lines are not skipped: the emptiness test of
    [line_should_be_included] sees the line with its line feed, so each such
    line contributes an empty requirement at its place. *)
Theorem blank_and_comment_lines_yield_empty (l1 l2 : list string) (line : string) :
  line = String PyStr.LF EmptyString
    \/ (exists comment, line = String PyStr.HASH comment) ->
  exists r1 r2,
    requirements_of_lines l1 = Some r1
    /\ requirements_of_lines l2 = Some r2
    /\ requirements_of_lines (l1 ++ line :: l2) = Some (r1 ++ EmptyString :: r2).
Proof.
  intros Hline.
  assert (Hone : requirements_of_lines [line] = Some [EmptyString]).
  { destruct Hline as [-> | [comment ->]]; reflexivity. }
  change (line :: l2) with ([line] ++ l2).
  rewrite !requirements_of_lines_app, Hone.
  rewrite (requirements_of_lines_spec l1), (requirements_of_lines_spec l2).
  eexists _, _. repeat split.
Qed.

Lemma blank_and_comment_lines_witness :
  requirements_of_lines
    ["numpy" +:+ String PyStr.LF EmptyString;
     String PyStr.LF EmptyString;
     "six # pinned elsewhere"]
  = Some ["numpy"; EmptyString; "six"].
Proof.
  destruct (blank_and_comment_lines_yield_empty
              ["numpy" +:+ String PyStr.LF EmptyString]
              ["six # pinned elsewhere"]
              (String PyStr.LF EmptyString) (or_introl eq_refl))
    as (r1 & r2 & H1 & H2 & H).
  injection H1 as <-. injection H2 as <-. exact H.
Defined.

(** X18: The test for [-r] looks at the raw line: a [-r] line indented by
    whitespace is not excluded, and becomes a requirement that starts with
    [-r]. *)
Theorem indented_dash_r_not_excluded (c : ascii) (rest : string) :
  PyStr.is_space c = true ->
  line_should_be_included (String c ("-r" +:+ rest)) = true
  /\ exists tail, _parse_line (String c ("-r" +:+ rest)) = Some ("-r" +:+ tail).
Proof.
  intros Hc. split.
  - change (negb (String.prefix "-r" (String c (String "-" (String "r" rest)))) = true).
    cbn [String.prefix].
    destruct (ascii_dec "-" c) as [<- | _];
      [vm_compute in Hc; discriminate Hc | reflexivity].
  - rewrite parse_line_eq. exists (PyStr.rstrip (PyStr.before PyStr.HASH rest)).
    f_equal. cbn [PyStr.before].
    destruct (Ascii.eqb_spec c PyStr.HASH) as [-> | _];
      [vm_compute in Hc; discriminate Hc |].
    change ("-r" +:+ rest) with (String "-" (String "r" rest)).
    cbn [PyStr.before]. change (Ascii.eqb "-" PyStr.HASH) with false.
    change (Ascii.eqb "r" PyStr.HASH) with false. cbn iota.
    unfold PyStr.strip. cbn [PyStr.lstrip]. rewrite Hc.
    cbn [PyStr.lstrip]. change (PyStr.is_space "-") with false. cbn iota.
    now rewrite !rstrip_cons_nonspace by reflexivity.
Qed.

Lemma indented_dash_r_witness :
  line_should_be_included " -r other.txt" = true
  /\ exists tail, _parse_line " -r other.txt" = Some ("-r" +:+ tail).
Proof.
  apply (indented_dash_r_not_excluded " " " other.txt"). reflexivity.
Defined.
